(** * aws-sigv4-action: a shallow embedding of [action.go]

    The action builds an HTTP request for a Lambda function URL, hashes its
    body, has it signed with AWS Signature Version 4 and sends it.  This file
    embeds [action.go] function by function, together with the parts of the Go
    standard library it calls ([strings], [net/url], [regexp], [net/http],
    [io], [crypto/sha256], [encoding/hex]), and proves properties of the
    embedding.  The signer of the AWS SDK, whose code the action only calls,
    is modelled from the action's specification (module [v4]).  An earlier
    revision of [action.go], kept with the sources, is embedded in module
    [part_001].

    Go strings are byte sequences: they are modelled by [string], one [ascii]
    per byte.  The definitions come first, the examples and theorems after
    them. *)

From Stdlib Require Import ZArith NArith Ascii.
From Stdlib Require String.
From stdpp Require Import base tactics option list sorting gmap strings.

Local Open Scope stdpp_scope.

(** ** Outcomes of Go code

    A Go function of this program either returns, or stops the process: by a
    run-time panic, or by [os.Exit].  What the program prints on its way is
    left out. *)

Inductive fault : Type :=
  | IndexOutOfRange (index len : nat)
  | NilDereference
  | RegexpSyntax.

Inductive outcome (A : Type) : Type :=
  | Ok (a : A)
  | Panic (f : fault)
  | Exit (code : Z).

Arguments Ok {A} a.
Arguments Panic {A} f.
Arguments Exit {A} code.

Global Instance outcome_ret : MRet outcome := fun A a => Ok a.

Global Instance outcome_bind : MBind outcome := fun A B f m =>
  match m with
  | Ok a => f a
  | Panic e => Panic e
  | Exit c => Exit c
  end.

Global Instance outcome_fmap : FMap outcome := fun A B f m =>
  match m with
  | Ok a => Ok (f a)
  | Panic e => Panic e
  | Exit c => Exit c
  end.

Definition returns {A} (m : outcome A) : Prop := ∃ a, m = Ok a.

(** [l[i]] on a slice: a run-time panic when [i] is out of range. *)
Definition at_index {A} (l : list A) (i : nat) : outcome A :=
  match l !! i with
  | Some x => Ok x
  | None => Panic (IndexOutOfRange i (length l))
  end.

(** ** Bytes *)

Definition byte (c : ascii) : N := N_of_ascii c.

Definition between (lo hi c : ascii) : bool :=
  ((byte lo <=? byte c) && (byte c <=? byte hi))%N.

Definition is_digit (c : ascii) : bool := between "0" "9" c.
Definition is_lower (c : ascii) : bool := between "a" "z" c.
Definition is_upper (c : ascii) : bool := between "A" "Z" c.
Definition is_alpha (c : ascii) : bool := is_lower c || is_upper c.

Definition to_upper (c : ascii) : ascii :=
  if is_lower c then ascii_of_N (byte c - 32) else c.
Definition to_lower (c : ascii) : ascii :=
  if is_upper c then ascii_of_N (byte c + 32) else c.

Definition bytes (s : string) : list ascii := String.list_ascii_of_string s.
Definition of_bytes (l : list ascii) : string := String.string_of_list_ascii l.

Definition mem_byte (c : ascii) (set : string) : bool :=
  existsb (Ascii.eqb c) (bytes set).

Definition LF : string := String "010" "".
Definition TAB : string := String "009" "".

(** ** Package [strings] *)

Module strings.

Fixpoint HasPrefix (s prefix : string) : bool :=
  match prefix, s with
  | "", _ => true
  | String p prefix', String c s' => Ascii.eqb p c && HasPrefix s' prefix'
  | String _ _, "" => false
  end.

Fixpoint Contains (s substr : string) : bool :=
  HasPrefix s substr ||
  match s with
  | "" => false
  | String _ s' => Contains s' substr
  end.

(** The pieces of [s] between the occurrences of [sep], found from the left
    and not overlapping: the first piece, and those after it.  [skip] counts
    the bytes of an occurrence of [sep] still to be passed over. *)
Fixpoint pieces (sep s : string) (skip : nat) : string * list string :=
  match s with
  | "" => ("", [])
  | String c s' =>
      match skip with
      | S k => pieces sep s' k
      | O =>
          if HasPrefix s sep
          then let '(p, ps) := pieces sep s' (String.length sep - 1) in
               ("", p :: ps)
          else let '(p, ps) := pieces sep s' 0 in
               (String c p, ps)
      end
  end.

(** [strings.Split(s, sep)].  With an empty [sep] Go splits after each UTF-8
    sequence; the program only splits on one-byte separators, and the model
    splits after each byte there. *)
Definition Split (s sep : string) : list string :=
  match sep with
  | "" => (λ c, String c "") <$> bytes s
  | _ => let '(p, ps) := pieces sep s 0 in p :: ps
  end.

Fixpoint TrimLeft (s cutset : string) : string :=
  match s with
  | "" => ""
  | String c s' => if mem_byte c cutset then TrimLeft s' cutset else s
  end.

Fixpoint TrimRight (s cutset : string) : string :=
  match s with
  | "" => ""
  | String c s' =>
      match TrimRight s' cutset with
      | "" => if mem_byte c cutset then "" else String c ""
      | t => String c t
      end
  end.

(** [strings.Trim(s, cutset)]: [s] without its leading and trailing bytes
    that are in [cutset]. *)
Definition Trim (s cutset : string) : string :=
  TrimRight (TrimLeft s cutset) cutset.

Definition ToLower (s : string) : string := of_bytes (to_lower <$> bytes s).

Definition HasSuffix (s suffix : string) : bool :=
  HasPrefix (String.rev s) (String.rev suffix).

(** Substring indices; [None] is Go's [-1]. *)
Fixpoint Index (s substr : string) : option nat :=
  if HasPrefix s substr then Some 0
  else match s with
       | "" => None
       | String _ s' => S <$> Index s' substr
       end.

Fixpoint LastIndex (s substr : string) : option nat :=
  match s with
  | "" => if HasPrefix s substr then Some 0 else None
  | String _ s' =>
      match LastIndex s' substr with
      | Some i => Some (S i)
      | None => if HasPrefix s substr then Some 0 else None
      end
  end.

Definition IndexByte (s : string) (c : ascii) : option nat :=
  Index s (String c "").
Definition LastIndexByte (s : string) (c : ascii) : option nat :=
  LastIndex s (String c "").

Definition CountByte (s : string) (c : ascii) : nat :=
  length (filter (λ x, x = c) (bytes s)).

(** The slices [s[:i]] and [s[i:]], for [i] within [s]. *)
Definition to (i : nat) (s : string) : string := of_bytes (take i (bytes s)).
Definition from (i : nat) (s : string) : string := of_bytes (drop i (bytes s)).

Fixpoint Join (elems : list string) (sep : string) : string :=
  match elems with
  | [] => ""
  | [e] => e
  | e :: rest => e +:+ sep +:+ Join rest sep
  end.

(** A [*strings.Reader]: the string it reads and its read index. *)
Record Reader : Type := mkReader { s : string; i : nat }.

(** [r.Len()]: the number of unread bytes. *)
Definition Len (r : Reader) : nat := String.length (s r) - i r.

Definition unread (r : Reader) : string := from (i r) (s r).

End strings.

(** ** Readers in memory

    A [*strings.Reader] is shared by whoever holds the pointer: readers live
    in a heap, a pointer is an index into it, and reading moves the index of
    the reader for all its holders. *)

Abbreviation loc := nat.
Abbreviation heap := (list strings.Reader).

(** [strings.NewReader(s)] *)
Definition strings_NewReader (s : string) (σ : heap) : loc * heap :=
  (length σ, σ ++ [strings.mkReader s 0]).

(** ** Package [net/url]

    Only what the program uses: [Parse], and [Hostname] on its result. *)

Module url.

Record URL : Type := mkURL {
  Scheme : string;
  Opaque : string;
  Host : string;
  Path : string;
  ForceQuery : bool;
  RawQuery : string;
  Fragment : string
}.

(** [url.Parse]: the program is embedded over any parser; [None] stands for
    the nil [*URL] that [Parse] returns together with an error.  [go1_16]
    below is the parser of the Go release the action is built with. *)
Class Parser : Type := Parse : string → option URL.

Definition validOptionalPort (port : string) : bool :=
  match port with
  | "" => true
  | String c rest => Ascii.eqb c ":" && forallb is_digit (bytes rest)
  end.

Definition splitHostPort (hostPort : string) : string * string :=
  let '(host, port) :=
    match strings.LastIndexByte hostPort ":" with
    | Some colon =>
        if validOptionalPort (strings.from colon hostPort)
        then (strings.to colon hostPort, strings.from (S colon) hostPort)
        else (hostPort, "")
    | None => (hostPort, "")
    end in
  if strings.HasPrefix host "[" && strings.HasSuffix host "]"
  then (strings.to (String.length host - 2) (strings.from 1 host), port)
  else (host, port).

(** [u.Hostname()]: [u.Host] without a valid port number and without the
    square brackets of an IPv6 literal. *)
Definition Hostname (u : URL) : string := (splitHostPort (Host u)).1.

(** *** The parser of go1.16 *)

Definition stringContainsCTLByte (s : string) : bool :=
  existsb (λ b, (byte b <? 32)%N || (byte b =? 127)%N) (bytes s).

Fixpoint getScheme_from (s : string) (i : nat) (rawURL : string)
  : option (string * string) :=
  match s with
  | "" => Some ("", rawURL)
  | String c s' =>
      if is_alpha c then getScheme_from s' (S i) rawURL
      else if is_digit c || mem_byte c "+-." then
        match i with
        | O => Some ("", rawURL)
        | _ => getScheme_from s' (S i) rawURL
        end
      else if Ascii.eqb c ":" then
        match i with
        | O => None
        | _ => Some (strings.to i rawURL, s')
        end
      else Some ("", rawURL)
  end.

Definition getScheme (rawURL : string) : option (string * string) :=
  getScheme_from rawURL 0 rawURL.

Definition split (s : string) (sep : ascii) (cutc : bool) : string * string :=
  match strings.IndexByte s sep with
  | None => (s, "")
  | Some i => (strings.to i s, strings.from (if cutc then S i else i) s)
  end.

Inductive encoding : Type :=
  | encodePath | encodeHost | encodeZone | encodeUserPassword | encodeFragment.

Definition ishex (c : ascii) : bool :=
  is_digit c || between "a" "f" c || between "A" "F" c.

Definition unhex (c : ascii) : N :=
  if is_digit c then byte c - byte "0"
  else if between "a" "f" c then byte c - byte "a" + 10
  else if between "A" "F" c then byte c - byte "A" + 10
  else 0.

(** [shouldEscape(c, encodeHost)]: the bytes that may not stand in a host. *)
Definition shouldEscapeHost (c : ascii) : bool :=
  negb (is_alpha c || is_digit c
        || mem_byte c "!$&'()*+,;=:[]<>" || Ascii.eqb c "034"
        || mem_byte c "-_.~").

Definition host_mode (mode : encoding) : bool :=
  match mode with encodeHost | encodeZone => true | _ => false end.

(** [unescape(s, mode)]: [None] for an [EscapeError] or [InvalidHostError]. *)
Fixpoint unescape (s : string) (mode : encoding) : option string :=
  match s with
  | "" => Some ""
  | String "%" rest =>
      match rest with
      | String h1 (String h2 rest') =>
          let is25 := Ascii.eqb h1 "2" && Ascii.eqb h2 "5" in
          let v := ascii_of_N (unhex h1 * 16 + unhex h2) in
          if negb (ishex h1 && ishex h2) then None
          else if match mode with
                  | encodeHost => (unhex h1 <? 8)%N && negb is25
                  | encodeZone =>
                      negb is25 && negb (Ascii.eqb v " ") && shouldEscapeHost v
                  | _ => false
                  end
          then None
          else String v <$> unescape rest' mode
      | _ => None
      end
  | String c rest =>
      if host_mode mode && negb (Ascii.eqb c "+")
         && (byte c <? 128)%N && shouldEscapeHost c
      then None
      else String c <$> unescape rest mode
  end.

Definition validUserinfo (s : string) : bool :=
  forallb (λ r, is_alpha r || is_digit r || mem_byte r "-._:~!$&'()*+,;=%@")
          (bytes s).

Definition parseHost (host : string) : option string :=
  if strings.HasPrefix host "["
  then
    i ← strings.LastIndex host "]";
    if negb (validOptionalPort (strings.from (S i) host)) then None
    else match strings.Index (strings.to i host) "%25" with
         | Some zone =>
             host1 ← unescape (strings.to zone host) encodeHost;
             host2 ← unescape (strings.from zone (strings.to i host)) encodeZone;
             host3 ← unescape (strings.from i host) encodeHost;
             Some (host1 +:+ host2 +:+ host3)
         | None => unescape host encodeHost
         end
  else
    match strings.LastIndex host ":" with
    | Some i =>
        if validOptionalPort (strings.from i host)
        then unescape host encodeHost else None
    | None => unescape host encodeHost
    end.

(** [parseAuthority]: the host of [authority]; the user information is
    checked as Go does, and left out of the record. *)
Definition parseAuthority (authority : string) : option string :=
  match strings.LastIndex authority "@" with
  | None => parseHost authority
  | Some i =>
      host ← parseHost (strings.from (S i) authority);
      let userinfo := strings.to i authority in
      if negb (validUserinfo userinfo) then None
      else
        let '(username, password) := split userinfo ":" true in
        _ ← unescape username encodeUserPassword;
        _ ← unescape password encodeUserPassword;
        Some host
  end.

(** [parse(rawURL, false)] *)
Definition parse (rawURL : string) : option URL :=
  if stringContainsCTLByte rawURL then None
  else if String.eqb rawURL "*" then Some (mkURL "" "" "" "*" false "" "")
  else
    '(scheme, rest) ← getScheme rawURL;
    let scheme := strings.ToLower scheme in
    let '(rest, force, query) :=
      if strings.HasSuffix rest "?" && (strings.CountByte rest "?" =? 1)
      then (strings.to (String.length rest - 1) rest, true, "")
      else let '(r, q) := split rest "?" true in (r, false, q) in
    if negb (strings.HasPrefix rest "/") && negb (String.eqb scheme "")
    then Some (mkURL scheme rest "" "" force query "")
    else
      let colon_first :=
        match strings.Index rest ":", strings.Index rest "/" with
        | Some colon, Some slash => colon <? slash
        | Some _, None => true
        | None, _ => false
        end in
      if negb (strings.HasPrefix rest "/") && colon_first then None
      else
        '(host, rest) ←
          (if (negb (String.eqb scheme "") || negb (strings.HasPrefix rest "///"))
              && strings.HasPrefix rest "//"
           then let '(authority, rest') := split (strings.from 2 rest) "/" false in
                host ← parseAuthority authority; Some (host, rest')
           else Some ("", rest));
        path ← unescape rest encodePath;
        Some (mkURL scheme "" host path force query "").

(** [url.Parse] of go1.16 *)
Definition go1_16 : Parser := λ rawURL,
  let '(u, frag) := split rawURL "#" true in
  url ← parse u;
  match frag with
  | "" => Some url
  | _ =>
      f ← unescape frag encodeFragment;
      Some (mkURL (Scheme url) (Opaque url) (Host url) (Path url)
                  (ForceQuery url) (RawQuery url) f)
  end.

End url.

(** ** Package [regexp]

    The fragment of the RE2 syntax the program's pattern is written in:
    literal bytes, [\d], grouping with capture, alternation and [?]. *)

Module regexp.

Inductive Regexp : Type :=
  | Empty
  | Lit (c : ascii)
  | Digit
  | Cat (r1 r2 : Regexp)
  | Alt (r1 r2 : Regexp)
  | Quest (r : Regexp)
  | Capture (n : nat) (r : Regexp).

(** *** Syntax *)

Definition meta (c : ascii) : bool := mem_byte c "\.+*?()|[]{}^$".

(** [r?], when a question mark follows [r]. *)
Definition quest (r : Regexp) (s : string) : Regexp * string :=
  match s with
  | String "?" s' => (Quest r, s')
  | _ => (r, s)
  end.

(** A recursive-descent parser; [n] is the number of the next capture
    group (groups are numbered by their opening parenthesis), and the
    result carries the unread input.  [fuel] bounds the nesting. *)
Fixpoint parse_alt (fuel : nat) (s : string) (n : nat)
  : option (Regexp * string * nat) :=
  match fuel with
  | O => None
  | S fuel =>
      '(r1, s1, n1) ← parse_seq fuel s n;
      match s1 with
      | String "|" s2 =>
          '(r2, s3, n3) ← parse_alt fuel s2 n1;
          Some (Alt r1 r2, s3, n3)
      | _ => Some (r1, s1, n1)
      end
  end
with parse_seq (fuel : nat) (s : string) (n : nat)
  : option (Regexp * string * nat) :=
  match fuel with
  | O => None
  | S fuel =>
      match s with
      | "" | String ")" _ | String "|" _ => Some (Empty, s, n)
      | _ =>
          '(a, s1, n1) ← parse_atom fuel s n;
          let '(a, s2) := quest a s1 in
          '(r, s3, n3) ← parse_seq fuel s2 n1;
          Some (match r with Empty => a | _ => Cat a r end, s3, n3)
      end
  end
with parse_atom (fuel : nat) (s : string) (n : nat)
  : option (Regexp * string * nat) :=
  match fuel with
  | O => None
  | S fuel =>
      match s with
      | String "(" s1 =>
          '(r, s2, n2) ← parse_alt fuel s1 (S n);
          match s2 with
          | String ")" s3 => Some (Capture n r, s3, n2)
          | _ => None
          end
      | String "\" (String "d" s1) => Some (Digit, s1, n)
      | String c s1 => if meta c then None else Some (Lit c, s1, n)
      | "" => None
      end
  end.

(** [regexp.Compile]: [None] for a pattern that does not parse, or that is
    not written in this fragment. *)
Definition Compile (expr : string) : option Regexp :=
  match parse_alt (3 * String.length expr + 3) expr 1 with
  | Some (r, "", _) => Some r
  | _ => None
  end.

(** [regexp.MustCompile] panics where [Compile] fails. *)
Definition MustCompile (expr : string) : outcome Regexp :=
  match Compile expr with
  | Some r => Ok r
  | None => Panic RegexpSyntax
  end.

Fixpoint NumSubexp (r : Regexp) : nat :=
  match r with
  | Empty | Lit _ | Digit => 0
  | Cat r1 r2 | Alt r1 r2 => NumSubexp r1 + NumSubexp r2
  | Quest r => NumSubexp r
  | Capture _ r => S (NumSubexp r)
  end.

(** *** Matching

    Go's matches are leftmost-first: among the matches that start at the
    leftmost possible place, the one a backtracking search finds first,
    trying the left alternative before the right one and [r] before the
    empty string in [r?].  The search is written with a continuation [k]
    for what follows [r]; [i] is the offset of [s] in the whole input, and
    [caps] maps the number of a group to the offsets it matched last. *)

Definition captures : Type := gmap nat (nat * nat).

Fixpoint search {R} (r : Regexp) (s : string) (i : nat) (caps : captures)
    (k : string → nat → captures → option R) : option R :=
  match r with
  | Empty => k s i caps
  | Lit c =>
      match s with
      | String c' s' => if Ascii.eqb c c' then k s' (S i) caps else None
      | "" => None
      end
  | Digit =>
      match s with
      | String c' s' => if is_digit c' then k s' (S i) caps else None
      | "" => None
      end
  | Cat r1 r2 =>
      search r1 s i caps (λ s' i' caps', search r2 s' i' caps' k)
  | Alt r1 r2 =>
      match search r1 s i caps k with
      | Some x => Some x
      | None => search r2 s i caps k
      end
  | Quest r1 =>
      match search r1 s i caps k with
      | Some x => Some x
      | None => k s i caps
      end
  | Capture n r1 =>
      search r1 s i caps (λ s' i' caps', k s' i' (<[n := (i, i')]> caps'))
  end.

(** The match of [r] at the front of [s]: its end offset and its groups. *)
Definition match_here (r : Regexp) (s : string) (i : nat)
  : option (nat * captures) :=
  search r s i ∅ (λ _ j caps, Some (j, caps)).

(** The leftmost match in [s], whose offset in the input is [i]: its start,
    its end and its groups. *)
Fixpoint find (r : Regexp) (s : string) (i : nat)
  : option (nat * nat * captures) :=
  match match_here r s i with
  | Some (j, caps) => Some (i, j, caps)
  | None =>
      match s with
      | "" => None
      | String _ s' => find r s' (S i)
      end
  end.

Definition slice (s : string) (i j : nat) : string :=
  strings.to (j - i) (strings.from i s).

(** [re.FindStringSubmatch(s)]: [None] is the nil slice of no match;
    otherwise the text of the leftmost match followed by the text of each
    group, the empty string for a group that took no part in the match. *)
Definition FindStringSubmatch (r : Regexp) (s : string) : option (list string) :=
  '(i, j, caps) ← find r s 0;
  Some (slice s i j ::
        ((λ n, match caps !! n with
               | Some (a, b) => slice s a b
               | None => ""
               end) <$> seq 1 (NumSubexp r))).

(** *** The language of an expression *)

Inductive matches : Regexp → string → Prop :=
  | matches_Empty : matches Empty ""
  | matches_Lit c : matches (Lit c) (String c "")
  | matches_Digit c : is_digit c = true → matches Digit (String c "")
  | matches_Cat r1 r2 w1 w2 :
      matches r1 w1 → matches r2 w2 → matches (Cat r1 r2) (w1 +:+ w2)
  | matches_Alt_l r1 r2 w : matches r1 w → matches (Alt r1 r2) w
  | matches_Alt_r r1 r2 w : matches r2 w → matches (Alt r1 r2) w
  | matches_Quest_some r w : matches r w → matches (Quest r) w
  | matches_Quest_none r : matches (Quest r) ""
  | matches_Capture n r w : matches r w → matches (Capture n r) w.

(** The expressions of this fragment have no repetition: their language is
    finite, and can be listed. *)
Fixpoint lang (r : Regexp) : list string :=
  match r with
  | Empty => [""]
  | Lit c => [String c ""]
  | Digit => (λ c, String c "") <$> bytes "0123456789"
  | Cat r1 r2 => w1 ← lang r1; w2 ← lang r2; [w1 +:+ w2]
  | Alt r1 r2 => lang r1 ++ lang r2
  | Quest r => lang r ++ [""]
  | Capture _ r => lang r
  end.

End regexp.

(** ** Packages [crypto/sha256] and [encoding/hex]

    SHA-256 as FIPS 180-4 defines it, on 32-bit words held in [N]. *)

Module sha256.
Local Open Scope N_scope.

Definition add (x y : N) : N := (x + y) mod 2 ^ 32.
Definition rotr (n x : N) : N :=
  N.lor (N.shiftr x n) (N.shiftl x (32 - n) mod 2 ^ 32).
Definition shr (n x : N) : N := N.shiftr x n.
Definition not32 (x : N) : N := N.lxor x 0xffffffff.

Definition Ch (x y z : N) : N := N.lxor (N.land x y) (N.land (not32 x) z).
Definition Maj (x y z : N) : N :=
  N.lxor (N.lxor (N.land x y) (N.land x z)) (N.land y z).
Definition Sigma0 (x : N) : N := N.lxor (N.lxor (rotr 2 x) (rotr 13 x)) (rotr 22 x).
Definition Sigma1 (x : N) : N := N.lxor (N.lxor (rotr 6 x) (rotr 11 x)) (rotr 25 x).
Definition sigma0 (x : N) : N := N.lxor (N.lxor (rotr 7 x) (rotr 18 x)) (shr 3 x).
Definition sigma1 (x : N) : N := N.lxor (N.lxor (rotr 17 x) (rotr 19 x)) (shr 10 x).

Definition hex_value (c : ascii) : N :=
  if is_digit c then byte c - 48 else byte c - 87.

(** The words written in a text, eight hexadecimal digits each. *)
Fixpoint hex_words (s : string) (acc : N) : list N :=
  match s with
  | "" => [acc]
  | String " " s' => acc :: hex_words s' 0
  | String c s' => hex_words s' (acc * 16 + hex_value c)
  end.

(** The constants of section 4.2.2: the first 32 bits of the fractional
    parts of the cube roots of the first 64 primes. *)
Definition K : list N :=
  hex_words
    ("428a2f98 71374491 b5c0fbcf e9b5dba5 3956c25b 59f111f1 923f82a4 ab1c5ed5 " +:+
     "d807aa98 12835b01 243185be 550c7dc3 72be5d74 80deb1fe 9bdc06a7 c19bf174 " +:+
     "e49b69c1 efbe4786 0fc19dc6 240ca1cc 2de92c6f 4a7484aa 5cb0a9dc 76f988da " +:+
     "983e5152 a831c66d b00327c8 bf597fc7 c6e00bf3 d5a79147 06ca6351 14292967 " +:+
     "27b70a85 2e1b2138 4d2c6dfc 53380d13 650a7354 766a0abb 81c2c92e 92722c85 " +:+
     "a2bfe8a1 a81a664b c24b8b70 c76c51a3 d192e819 d6990624 f40e3585 106aa070 " +:+
     "19a4c116 1e376c08 2748774c 34b0bcb5 391c0cb3 4ed8aa4a 5b9cca4f 682e6ff3 " +:+
     "748f82ee 78a5636f 84c87814 8cc70208 90befffa a4506ceb bef9a3f7 c67178f2") 0.

(** The initial hash value of section 5.3.3. *)
Definition init : list N :=
  hex_words "6a09e667 bb67ae85 3c6ef372 a54ff53a 510e527f 9b05688c 1f83d9ab 5be0cd19" 0.

(** The bytes of the [n]-byte big-endian form of [x]. *)
Fixpoint big_endian (n : nat) (x : N) : list N :=
  match n with
  | O => []
  | S n => big_endian n (x / 256) ++ [x mod 256]
  end.

(** The message followed by the bit 1, zeros, and its length in bits on
    64 bits: a whole number of 64-byte blocks. *)
Definition pad (msg : list N) : list N :=
  let len := N.of_nat (length msg) in
  msg ++ [0x80] ++ replicate (N.to_nat ((119 - len mod 64) mod 64)) 0
      ++ big_endian 8 (8 * len).

Fixpoint words (fuel : nat) (bs : list N) : list N :=
  match fuel, bs with
  | S fuel, b0 :: b1 :: b2 :: b3 :: rest =>
      (((b0 * 256 + b1) * 256 + b2) * 256 + b3) :: words fuel rest
  | _, _ => []
  end.

Fixpoint blocks (fuel : nat) (ws : list N) : list (list N) :=
  match fuel, ws with
  | S fuel, _ :: _ => take 16 ws :: blocks fuel (drop 16 ws)
  | _, _ => []
  end.

(** The message schedule, last word first: [rw] holds [W t-1 .. W 0]. *)
Fixpoint schedule (n : nat) (rw : list N) : list N :=
  match n with
  | O => rw
  | S n =>
      let w i := default 0 (rw !! i) in
      schedule n (add (add (sigma1 (w 1%nat)) (w 6%nat))
                      (add (sigma0 (w 14%nat)) (w 15%nat)) :: rw)
  end.

Definition round (s : list N) (kw : N * N) : list N :=
  match s with
  | [a; b; c; d; e; f; g; h] =>
      let t1 := add (add (add (add h (Sigma1 e)) (Ch e f g)) kw.1) kw.2 in
      let t2 := add (Sigma0 a) (Maj a b c) in
      [add t1 t2; a; b; c; add d t1; e; f; g]
  | _ => s
  end.

Definition block (h : list N) (m : list N) : list N :=
  let w := rev (schedule 48 (rev m)) in
  zip_with add h (foldl round h (zip K w)).

(** The digest of a message, 32 bytes. *)
Definition Sum256 (data : string) : string :=
  let bs := pad (byte <$> bytes data) in
  let ws := words (length bs) bs in
  let h := foldl block init (blocks (length ws) ws) in
  of_bytes (ascii_of_N <$> (h ≫= big_endian 4)).

(** A [hash.Hash] made by [sha256.New()] holds what was written to it;
    [h.Sum(nil)] is the digest of that. *)
Definition Hash : Type := string.
Definition New : Hash := "".
Definition Write (h : Hash) (p : string) : Hash := h +:+ p.
Definition Sum (h : Hash) : string := Sum256 h.

End sha256.

Module hex.

Definition hextable : string := "0123456789abcdef".

Definition digit (n : N) : ascii :=
  default "0"%char (bytes hextable !! N.to_nat n).

(** [hex.EncodeToString]: two lower-case digits for each byte. *)
Definition EncodeToString (src : string) : string :=
  of_bytes (bytes src ≫= λ c, [digit (byte c / 16); digit (byte c mod 16)]).

End hex.

(** ** Package [io] *)

(** [io.Copy(dst, src)] for a hash and a [*strings.Reader]: all the unread
    bytes of [src] are written to [dst], and [src] is left at its end. *)
Definition io_Copy (dst : sha256.Hash) (src : loc) (σ : heap) : sha256.Hash * heap :=
  match σ !! src with
  | Some r =>
      (sha256.Write dst (strings.unread r),
       <[src := strings.mkReader (strings.s r) (String.length (strings.s r))]> σ)
  | None => (dst, σ)
  end.

(** ** Package [net/http] *)

Module http.

(** The bytes of an HTTP token (RFC 7230). *)
Definition isToken (c : ascii) : bool :=
  is_alpha c || is_digit c || mem_byte c "!#$%&'*+-.^_`|~".

Fixpoint canonical (upper : bool) (a : list ascii) : list ascii :=
  match a with
  | [] => []
  | c :: a' =>
      let c := if upper then to_upper c else to_lower c in
      c :: canonical (Ascii.eqb c "-") a'
  end.

(** [textproto.CanonicalMIMEHeaderKey]: the first letter and each letter
    after a hyphen in upper case, the others in lower case; a key with a
    byte that is not a token byte is returned as it is. *)
Definition CanonicalMIMEHeaderKey (key : string) : string :=
  if forallb isToken (bytes key)
  then of_bytes (canonical true (bytes key))
  else key.

(** [http.Header], a [map[string][]string] (it is [textproto.MIMEHeader]). *)
Abbreviation MIMEHeader := (gmap string (list string)).

Definition Add (h : MIMEHeader) (key value : string) : MIMEHeader :=
  let key := CanonicalMIMEHeaderKey key in
  <[key := default [] (h !! key) ++ [value]]> h.

Definition Set' (h : MIMEHeader) (key value : string) : MIMEHeader :=
  <[CanonicalMIMEHeaderKey key := [value]]> h.

Definition Get (h : MIMEHeader) (key : string) : string :=
  match h !! CanonicalMIMEHeaderKey key with
  | Some (v :: _) => v
  | _ => ""
  end.

(** [req.Body]: nil, [http.NoBody], or a reader wrapped by
    [ioutil.NopCloser]. *)
Inductive body : Type :=
  | nil_body
  | NoBody
  | NopCloser (r : loc).

Record Request : Type := mkRequest {
  Method : string;
  URL : url.URL;
  Header : MIMEHeader;
  Body : body;
  ContentLength : Z;
  Host : string
}.

Definition with_Header (req : Request) (h : MIMEHeader) : Request :=
  mkRequest (Method req) (URL req) h (Body req) (ContentLength req) (Host req).

Definition with_Body (req : Request) (b : body) : Request :=
  mkRequest (Method req) (URL req) (Header req) b (ContentLength req) (Host req).

Definition validMethod (method : string) : bool :=
  (0 <? String.length method) && forallb isToken (bytes method).

Definition removeEmptyPort (host : string) : string :=
  let hasPort :=
    match strings.LastIndex host ":", strings.LastIndex host "]" with
    | Some c, Some b => b <? c
    | Some _, None => true
    | None, _ => false
    end in
  if hasPort && strings.HasSuffix host ":"
  then strings.to (String.length host - 1) host
  else host.

(** [http.NewRequest(method, url, body)] for a [*strings.Reader] body;
    [None] is the nil request that comes with an error.  The request keeps
    the pointer to the reader, and takes its content length from the bytes
    the reader has left; a reader with nothing left is replaced by
    [NoBody]. *)
Definition NewRequest `{url.Parser} (method url : string) (body : loc) (σ : heap)
  : option Request :=
  let method := if String.eqb method "" then "GET" else method in
  if negb (validMethod method) then None
  else
    u ← url.Parse url;
    let host := removeEmptyPort (url.Host u) in
    let u := url.mkURL (url.Scheme u) (url.Opaque u) host (url.Path u)
                       (url.ForceQuery u) (url.RawQuery u) (url.Fragment u) in
    let len := from_option strings.Len 0 (σ !! body) in
    Some (mkRequest method u ∅
                    (if len =? 0 then NoBody else NopCloser body)
                    (Z.of_nat len) host).

(** What a client writes as the body of [req]: the bytes its body reader
    has left.  With a positive content length the transport sends that
    many bytes and fails ([None]) when the reader has fewer or more. *)
Definition outgoing_body (req : Request) (σ : heap) : option string :=
  match Body req with
  | nil_body | NoBody => Some ""
  | NopCloser r =>
      rd ← σ !! r;
      let rest := strings.unread rd in
      if (0 <? ContentLength req)%Z
         && negb (Z.of_nat (String.length rest) =? ContentLength req)%Z
      then None else Some rest
  end.

End http.

(** ** Package [aws] *)

Module aws.

Record Credentials : Type := mkCredentials {
  AccessKeyID : string;
  SecretAccessKey : string;
  SessionToken : string
}.

End aws.

(** ** [action.go] *)

Definition awsRegionRegExp : string :=
  "(us(-gov)?|ap|ca|cn|eu|sa)-(central|(north|south)?(east|west)?)-\d".

(** The pattern, compiled. *)
Definition awsRegionRe : regexp.Regexp :=
  Eval vm_compute in default regexp.Empty (regexp.Compile awsRegionRegExp).

(** The grammar of AWS region tokens in words: a partition prefix, a hyphen,
    a direction ([central], or an optional [north] or [south] followed by
    an optional [east] or [west]), a hyphen and one digit. *)
Definition partition_prefixes : list string :=
  ["us"; "us-gov"; "ap"; "ca"; "cn"; "eu"; "sa"].

Definition directions : list string :=
  "central" ::
  (ns ← [""; "north"; "south"]; ew ← [""; "east"; "west"]; [ns +:+ ew]).

Definition digits : list string :=
  ["0"; "1"; "2"; "3"; "4"; "5"; "6"; "7"; "8"; "9"].

Definition region_tokens : list string :=
  p ← partition_prefixes; d ← directions; n ← digits;
  [p +:+ "-" +:+ d +:+ "-" +:+ n].

(** [t] occurs in [s], with [pre] before it. *)
Definition occurs_at (pre t s : string) : Prop := ∃ post, s = pre +:+ t +:+ post.

Definition has_region_token (hostname : string) : Prop :=
  ∃ pre t, t ∈ region_tokens ∧ occurs_at pre t hostname.

(** The first region token of [hostname]: no token occurs further left. *)
Definition first_region_token (t hostname : string) : Prop :=
  ∃ pre, t ∈ region_tokens ∧ occurs_at pre t hostname ∧
    ∀ pre' t', t' ∈ region_tokens → occurs_at pre' t' hostname →
      String.length pre ≤ String.length pre'.

(** The command-line flags, after [flag.Parse]. *)
Record flags : Type := mkFlags {
  lambdaURL : string;
  requestBody : string;
  requestMethod : string;
  headerList : string
}.

(** The flags' default values. *)
Definition flag_defaults : flags := mkFlags "" "" "GET" "".

Definition EnvAWSAccessKeyID : string := "AWS_ACCESS_KEY_ID".
Definition EnvAWSSecretAccessKey : string := "AWS_SECRET_ACCESS_KEY".
Definition EnvAWSSessionToken : string := "AWS_SESSION_TOKEN".
Definition EnvAWSRegion : string := "AWS_REGION".

(** [os.Getenv]: the empty string for a variable that is not set. *)
Definition os_Getenv (environ : gmap string string) (key : string) : string :=
  default "" (environ !! key).

(** Go's [error] values are modelled by their message; [None] is [nil]. *)
Definition error : Type := option string.

Definition errors_New (text : string) : error := Some text.

Section guess.
Context `{url.Parser}.

Definition guessAWSRegion (lambdaURL : string) : outcome (string * error) :=
  let u := url.Parse lambdaURL in
  r ← regexp.MustCompile awsRegionRegExp;
  hostname ← match u with
             | Some u => Ok (url.Hostname u)
             | None => Panic NilDereference
             end;
  match regexp.FindStringSubmatch r hostname with
  | None =>
      Ok ("", errors_New "lambda function URL is malformed, impossible to guess AWS region")
  | Some result => r0 ← at_index result 0; Ok (r0, None)
  end.

End guess.

Section build.
Context `{url.Parser} (args : flags).

(** The loop over the header lines in [buildRequestWithBodyReader]:
    [req.Header.Add(key, value)] for each line, split at its colons. *)
Fixpoint range_headers (headers : list string) (req : http.Request)
  : outcome http.Request :=
  match headers with
  | [] => Ok req
  | header :: headers =>
      key ← (λ x, strings.Trim x " ") <$> at_index (strings.Split header ":") 0;
      value ← (λ x, strings.Trim x " ") <$> at_index (strings.Split header ":") 1;
      range_headers headers
        (http.with_Header req (http.Add (http.Header req) key value))
  end.

Definition buildRequestWithBodyReader
    (lambdaURL requestMethod region : string) (requestBody : loc) (σ : heap)
  : outcome (http.Request * string * heap) :=
  req ← match http.NewRequest requestMethod lambdaURL requestBody σ with
        | Some req => Ok req
        | None => Exit 1
        end;
  let headers := strings.Split (headerList args) LF in
  req ← range_headers headers req;
  let h := sha256.New in
  let '(h, σ) := io_Copy h requestBody σ in
  let payloadHash := hex.EncodeToString (sha256.Sum h) in
  Ok (req, payloadHash, σ).

Definition buildRequest (lambdaURL requestMethod region requestBody : string)
    (σ : heap) : outcome (http.Request * string * heap) :=
  let '(reader, σ) := strings_NewReader requestBody σ in
  buildRequestWithBodyReader lambdaURL requestMethod region reader σ.

(** [main] up to the call of [signer.SignHTTP]: the credentials, the
    request, the payload hash and the region it passes. *)
Definition main_prepare (environ : gmap string string) (σ : heap)
  : outcome (aws.Credentials * http.Request * string * string * heap) :=
  if String.eqb (lambdaURL args) "" then Exit 1
  else
    awsRegion ←
      (let awsRegion := os_Getenv environ EnvAWSRegion in
       if String.eqb awsRegion "" then
         '(awsRegion, err) ← guessAWSRegion (lambdaURL args);
         match err with
         | Some _ => Exit 1
         | None => Ok awsRegion
         end
       else Ok awsRegion);
    let awsAccessKeyID := os_Getenv environ EnvAWSAccessKeyID in
    if String.eqb awsAccessKeyID "" then Exit 1
    else
      let awsSecretAccessKey := os_Getenv environ EnvAWSSecretAccessKey in
      if String.eqb awsSecretAccessKey "" then Exit 1
      else
        let awsSessionToken := os_Getenv environ EnvAWSSessionToken in
        let credentials :=
          if String.eqb awsSessionToken ""
          then aws.mkCredentials awsAccessKeyID awsSecretAccessKey ""
          else aws.mkCredentials awsAccessKeyID awsSecretAccessKey awsSessionToken in
        '(req, bodyHash, σ) ←
          buildRequest (lambdaURL args) (requestMethod args) awsRegion
                       (requestBody args) σ;
        let '(reader, σ) := strings_NewReader (requestBody args) σ in
        let req := http.with_Body req (http.NopCloser reader) in
        Ok (credentials, req, bodyHash, awsRegion, σ).

End build.

(** ** The signer: [v4.Signer.SignHTTP]

    The action has its requests signed by the AWS SDK
    ([github.com/aws/aws-sdk-go-v2/aws/signer/v4]); the signer's code is not
    part of the action's sources.  It is modelled here from the action's
    specification, sections 4.4 to 4.7. *)

Module v4.

(** Modelled from the spec: the HMAC-SHA256 of section 4.5 (RFC 2104 with
    SHA-256, block size 64), which the absent signer takes from
    [crypto/hmac]. *)
Definition HMAC (key data : string) : string :=
  let key := if 64 <? String.length key then sha256.Sum256 key else key in
  let block := bytes key ++ replicate (64 - String.length key) "000"%char in
  let xor (p : N) := of_bytes ((λ c, ascii_of_N (N.lxor (byte c) p)) <$> block) in
  sha256.Sum256 (xor 0x5c%N +:+ sha256.Sum256 (xor 0x36%N +:+ data)).

Fixpoint digits_of (fuel : nat) (n : N) (acc : string) : string :=
  match fuel with
  | O => acc
  | S fuel =>
      let acc := String (hex.digit (n mod 10)) acc in
      if (n / 10 =? 0)%N then acc else digits_of fuel (n / 10)%N acc
  end.

(** Decimal digits of a number. *)
Definition itoa (n : N) : string := digits_of (S (N.to_nat (N.log2 n))) n "".

(** Decimal digits, with zeros in front up to [width] digits. *)
Definition zero_padded (width : nat) (n : Z) : string :=
  let d := itoa (Z.to_N n) in
  of_bytes (replicate (width - String.length d) "0"%char) +:+ d.

(** Modelled from the spec: the UTC calendar date [YYYYMMDD] of a time given
    in seconds since the Unix epoch (section 4.5), by the usual conversion
    of a day count to a date of the Gregorian calendar. *)
Definition YYYYMMDD (t : Z) : string :=
  let z := (t / 86400 + 719468)%Z in
  let era := (z / 146097)%Z in
  let doe := (z - era * 146097)%Z in
  let yoe := ((doe - doe / 1460 + doe / 36524 - doe / 146096) / 365)%Z in
  let doy := (doe - (365 * yoe + yoe / 4 - yoe / 100))%Z in
  let mp := ((5 * doy + 2) / 153)%Z in
  let d := (doy - (153 * mp + 2) / 5 + 1)%Z in
  let m := (if mp <? 10 then mp + 3 else mp - 9)%Z in
  let y := (yoe + era * 400 + (if m <=? 2 then 1 else 0))%Z in
  zero_padded 4 y +:+ zero_padded 2 m +:+ zero_padded 2 d.

(** Modelled from the spec: the timestamp [TS], [YYYYMMDDTHHMMSSZ] in UTC
    (section 4.6); its date is [YYYYMMDD] of the same time. *)
Definition TS (t : Z) : string :=
  let s := (t mod 86400)%Z in
  YYYYMMDD t +:+ "T" +:+ zero_padded 2 (s / 3600) +:+ zero_padded 2 (s / 60 mod 60)
    +:+ zero_padded 2 (s mod 60) +:+ "Z".

(** Modelled from the spec: the credential scope
    [YYYYMMDD/region/service/aws4_request] (section 3). *)
Definition credentialScope (t : Z) (region service : string) : string :=
  YYYYMMDD t +:+ "/" +:+ region +:+ "/" +:+ service +:+ "/aws4_request".

Definition unreserved (c : ascii) : bool :=
  is_alpha c || is_digit c || mem_byte c "-_.~".

Definition HEX (n : N) : ascii :=
  default "0"%char (bytes "0123456789ABCDEF" !! N.to_nat n).

(** Percent-encoding: the bytes that [keep] holds stay, every other byte
    becomes [%XX]. *)
Definition percent_encode (keep : ascii → bool) (s : string) : string :=
  of_bytes (bytes s ≫= λ c,
    if keep c then [c] else ["%"%char; HEX (byte c / 16); HEX (byte c mod 16)]).

(** Modelled from the spec: the canonical URI (section 4.4, item 2), the
    percent-encoded path with unreserved characters and the separators of
    its segments untouched; an empty path becomes [/]. *)
Definition canonicalURI (path : string) : string :=
  match path with
  | "" => "/"
  | _ => percent_encode (λ c, unreserved c || Ascii.eqb c "/") path
  end.

Fixpoint percent_decode (s : string) : string :=
  match s with
  | "" => ""
  | String "%" (String h1 (String h2 rest) as s') =>
      if url.ishex h1 && url.ishex h2
      then String (ascii_of_N (url.unhex h1 * 16 + url.unhex h2)) (percent_decode rest)
      else String "%" (percent_decode s')
  | String "+" rest => String " " (percent_decode rest)
  | String c rest => String c (percent_decode rest)
  end.

Definition pair_le (p q : string * string) : Prop :=
  if String.eqb p.1 q.1 then String.le p.2 q.2 else String.le p.1 q.1.

Global Instance pair_le_dec : RelDecision pair_le.
Proof. intros p q. unfold pair_le. destruct (String.eqb p.1 q.1); apply _. Defined.

(** Modelled from the spec: the canonical query string (section 4.4,
    item 3), the parameters sorted by key then value and percent-encoded,
    the empty string if there are none. *)
Definition canonicalQuery (rawQuery : string) : string :=
  let params :=
    (λ kv, let '(k, v) := url.split kv "=" true in
           (percent_decode k, percent_decode v))
    <$> filter (λ kv, kv ≠ "") (strings.Split rawQuery "&") in
  strings.Join
    ((λ '(k, v), percent_encode unreserved k +:+ "=" +:+ percent_encode unreserved v)
     <$> merge_sort pair_le params) "&".

(** Modelled from the spec: the value the request carries for the header
    [name] (given in lower case), names compared without regard to case
    (section 3).  The host is the request's [Host]; the content length is
    the request's [ContentLength] when it is positive; several values of one
    header are joined by commas. *)
Definition header_value (req : http.Request) (name : string) : option string :=
  if String.eqb name "host" then Some (http.Host req)
  else if String.eqb name "content-length" && (0 <? http.ContentLength req)%Z
  then Some (itoa (Z.to_N (http.ContentLength req)))
  else
    match filter (λ kv, strings.ToLower kv.1 = name) (map_to_list (http.Header req)) with
    | [] => None
    | kvs => Some (strings.Join (kvs ≫= snd) ",")
    end.

Definition present (req : http.Request) (name : string) : bool :=
  bool_decide (is_Some (header_value req name)).

(** Modelled from the spec: the selection of the signed headers (section
    4.4): always [host] and [x-amz-date]; [content-length] and
    [content-type] when present on the request; [x-amz-security-token]
    when a session token is supplied; sorted. *)
Definition signedHeaders (credentials : aws.Credentials) (req : http.Request)
  : list string :=
  merge_sort String.le
    (["host"; "x-amz-date"]
     ++ filter (λ name, present req name = true) ["content-length"; "content-type"]
     ++ (if String.eqb (aws.SessionToken credentials) "" then []
         else ["x-amz-security-token"])).

(** Modelled from the spec: the canonical headers (section 4.4, item 4),
    for each signed header its name, a colon, its trimmed value and a
    newline. *)
Definition canonicalHeaders (req : http.Request) (names : list string) : string :=
  foldr String.app ""
    ((λ name, name +:+ ":" +:+ strings.Trim (default "" (header_value req name)) " " +:+ LF)
     <$> names).

(** Modelled from the spec: the canonical request (section 4.4), its six
    items joined by newlines. *)
Definition canonicalRequest (req : http.Request) (names : list string)
    (payloadHash : string) : string :=
  strings.Join
    [ of_bytes (to_upper <$> bytes (http.Method req));
      canonicalURI (url.Path (http.URL req));
      canonicalQuery (url.RawQuery (http.URL req));
      canonicalHeaders req names;
      strings.Join names ";";
      payloadHash ] LF.

(** Modelled from the spec: the signing key (section 4.5). *)
Definition signingKey (secretKey : string) (t : Z) (region service : string) : string :=
  let kDate := HMAC ("AWS4" +:+ secretKey) (YYYYMMDD t) in
  let kRegion := HMAC kDate region in
  let kService := HMAC kRegion service in
  HMAC kService "aws4_request".

(** Modelled from the spec: the signature (section 4.6). *)
Definition signature (credentials : aws.Credentials) (req : http.Request)
    (names : list string) (payloadHash service region : string) (t : Z) : string :=
  let stringToSign :=
    "AWS4-HMAC-SHA256" +:+ LF +:+ TS t +:+ LF +:+ credentialScope t region service
      +:+ LF +:+ hex.EncodeToString
                   (sha256.Sum256 (canonicalRequest req names payloadHash)) in
  hex.EncodeToString
    (HMAC (signingKey (aws.SecretAccessKey credentials) t region service) stringToSign).

(** Modelled from the spec: the value of the [Authorization] header
    (section 4.7) for a list of signed headers and a signature. *)
Definition authorization (accessKeyID scope : string) (names : list string)
    (sig : string) : string :=
  "AWS4-HMAC-SHA256 Credential=" +:+ accessKeyID +:+ "/" +:+ scope
    +:+ ", SignedHeaders=" +:+ strings.Join names ";" +:+ ", Signature=" +:+ sig.

(** Modelled from the spec: [signer.SignHTTP], absent from the sources.
    It sets [X-Amz-Date] and, when there is a session token,
    [X-Amz-Security-Token] on the request (section 4.7), selects the signed
    headers, computes the signature and sets [Authorization]. *)
Definition SignHTTP (credentials : aws.Credentials) (req : http.Request)
    (payloadHash service region : string) (signingTime : Z) : http.Request :=
  let h := http.Set' (http.Header req) "X-Amz-Date" (TS signingTime) in
  let h := if String.eqb (aws.SessionToken credentials) "" then h
           else http.Set' h "X-Amz-Security-Token" (aws.SessionToken credentials) in
  let req := http.with_Header req h in
  let names := signedHeaders credentials req in
  let sig := signature credentials req names payloadHash service region signingTime in
  http.with_Header req
    (http.Set' h "Authorization"
       (authorization (aws.AccessKeyID credentials)
          (credentialScope signingTime region service) names sig)).

End v4.

Section main.
Context `{url.Parser} (args : flags).


End main.

(** The credentials and the signing of [TestSignRequest]. *)
Definition testCredentials : aws.Credentials := aws.mkCredentials "AKID" "SECRET" "SESSION".

(** [TestSignRequest] of the action's tests: the [Authorization] and
    [X-Amz-Date] headers it compares with the expected ones.  The test does
    not parse a command line: the flags have their default values. *)
Definition TestSignRequest `{url.Parser} (σ : heap) : outcome (string * string) :=
  '(req, body, σ) ←
    buildRequest flag_defaults "https://some-id.lambda-url.eu-west-1.on.aws/"
                 "POST" "eu-west-1" "{}" σ;
  let req := v4.SignHTTP testCredentials req body "lambda" "eu-west-1" 0 in
  let q := http.Header req in
  Ok (http.Get q "Authorization", http.Get q "X-Amz-Date").


(** ** The end of [main]: what it prints for a response *)

(** The [Status] and [StatusCode] of an [*http.Response]. *)
Record Response : Type := mkResponse {
  Status : string;
  StatusCode : Z
}.

Fixpoint decimal (fuel : nat) (n : N) (acc : string) : string :=
  match fuel with
  | O => acc
  | S fuel =>
      let acc := String (ascii_of_N (48 + n mod 10)) acc in
      if (n / 10 =? 0)%N then acc else decimal fuel (n / 10)%N acc
  end.

(** The verb [%d] of [fmt] for an [int]. *)
Definition fmt_d (z : Z) : string :=
  let n := Z.to_N (Z.abs z) in
  (if (z <? 0)%Z then "-" else "") +:+ decimal (S (N.to_nat (N.log2 n))) n "".

(** What [main] writes to the standard output once [client.Do] has returned
    the response [resp] and its body has been read as [respBody]. *)
Definition main_report (resp : Response) (respBody : string) : string :=
  "status code: " +:+ Status resp +:+ ", response: " +:+ respBody
  +:+ "::set-output name=status::" +:+ Status resp
  +:+ LF
  +:+ "::set-output name=code::" +:+ fmt_d (StatusCode resp)
  +:+ LF
  +:+ "::set-output name=message::" +:+ respBody
  +:+ LF.

(** ** The earlier revision of [action.go]

    The sources hold an earlier revision of the program, which takes its
    inputs from the environment, always posts with the content type
    [application/json], and sends the request as [buildRequest] returns it.
    [guessAWSRegion] is the same in both revisions. *)

Module part_001.

Definition EnvAWSAccessKeyID : string := "aws-access-key-id".
Definition EnvAWSSecretAccessKey : string := "aws-secret-access-key".
Definition EnvAWSSessionToken : string := "aws-session-token".
Definition EnvAWSRegion : string := "region".
Definition EnvLambdaFunctionURL : string := "lambda-function-url".
Definition EnvLambdaFunctionBody : string := "body".

Section build.
Context `{url.Parser}.

(** The error of [http.NewRequest] is dropped: [req.Header] on the nil
    request it comes with is a run-time panic. *)
Definition buildRequestWithBodyReader (lambdaURL region : string) (body : loc)
    (σ : heap) : outcome (http.Request * string * heap) :=
  let req := http.NewRequest "POST" lambdaURL body σ in
  req ← match req with
        | Some req =>
            Ok (http.with_Header req
                  (http.Add (http.Header req) "Content-Type" "application/json"))
        | None => Panic NilDereference
        end;
  let h := sha256.New in
  let '(h, σ) := io_Copy h body σ in
  let payloadHash := hex.EncodeToString (sha256.Sum h) in
  Ok (req, payloadHash, σ).

Definition buildRequest (lambdaURL region body : string) (σ : heap)
  : outcome (http.Request * string * heap) :=
  let '(reader, σ) := strings_NewReader body σ in
  buildRequestWithBodyReader lambdaURL region reader σ.

(** [main] up to the call of [signer.SignHTTP]; the request it passes is
    the one it sends afterwards. *)
Definition main_prepare (environ : gmap string string) (σ : heap)
  : outcome (aws.Credentials * http.Request * string * string * heap) :=
  let lambdaURL := os_Getenv environ EnvLambdaFunctionURL in
  if String.eqb lambdaURL "" then Exit 1
  else
    let body := os_Getenv environ EnvLambdaFunctionBody in
    awsRegion ←
      (let awsRegion := os_Getenv environ EnvAWSRegion in
       if String.eqb awsRegion "" then
         '(awsRegion, err) ← guessAWSRegion lambdaURL;
         match err with
         | Some _ => Exit 1
         | None => Ok awsRegion
         end
       else Ok awsRegion);
    let awsAccessKeyID := os_Getenv environ EnvAWSAccessKeyID in
    if String.eqb awsAccessKeyID "" then Exit 1
    else
      let awsSecretAccessKey := os_Getenv environ EnvAWSSecretAccessKey in
      if String.eqb awsSecretAccessKey "" then Exit 1
      else
        let awsSessionToken := os_Getenv environ EnvAWSSessionToken in
        let credentials :=
          if String.eqb awsSessionToken ""
          then aws.mkCredentials awsAccessKeyID awsSecretAccessKey ""
          else aws.mkCredentials awsAccessKeyID awsSecretAccessKey awsSessionToken in
        '(req, bodyHash, σ) ← buildRequest lambdaURL awsRegion body σ;
        Ok (credentials, req, bodyHash, awsRegion, σ).

End build.

End part_001.

(** ** Definitions used in the statements and proofs *)

Definition included (l1 l2 : list string) : bool :=
  forallb (λ w, existsb (String.eqb w) l2) l1.

Definition prefix_free (l : list string) : bool :=
  forallb (λ t1, forallb (λ t2, implb (strings.HasPrefix t1 t2) (String.eqb t1 t2)) l) l.

(** The grammar can be decided by looking for each token. *)
Definition has_region_token_b (hostname : string) : bool :=
  existsb (strings.Contains hostname) region_tokens.

(** Requests that differ in their body reader only. *)
Definition strip (req : http.Request) : http.Request := http.with_Body req http.nil_body.

(** The request as [http.NewRequest] makes it, but for its body reader. *)
Definition new_request `{url.Parser} (method url : string) (len : nat)
  : option http.Request :=
  let method := if String.eqb method "" then "GET" else method in
  if negb (http.validMethod method) then None
  else
    u ← url.Parse url;
    let host := http.removeEmptyPort (url.Host u) in
    Some (http.mkRequest method
            (url.mkURL (url.Scheme u) (url.Opaque u) host (url.Path u)
                       (url.ForceQuery u) (url.RawQuery u) (url.Fragment u))
            ∅ http.nil_body (Z.of_nat len) host).

Definition body_of (len : nat) (reader : loc) : http.body :=
  if len =? 0 then http.NoBody else http.NopCloser reader.

(** The request has a header whose name, in lower case, is [name]. *)
Definition carries (req : http.Request) (name : string) : Prop :=
  ∃ key values, http.Header req !! key = Some values ∧ strings.ToLower key = name.

(** What [main] gives to the signer, but for the place of the body reader. *)
Definition signing_view
    (o : outcome (aws.Credentials * http.Request * string * string * heap))
  : outcome (aws.Credentials * http.Request * string * string) :=
  (λ '(credentials, req, bodyHash, awsRegion, _),
     (credentials, strip req, bodyHash, awsRegion)) <$> o.

(** [n] spaces. *)
Definition spaces (n : nat) : string := of_bytes (replicate n " "%char).

(** [s] has no space at its start nor at its end. *)
Definition no_space_at_ends (s : string) : Prop :=
  strings.HasPrefix s " " = false ∧ ∀ s', s ≠ s' +:+ " ".

(** Sequences and alternatives of expressions, nested to the right as the
    parser nests them. *)
Definition cat (rs : list regexp.Regexp) : regexp.Regexp :=
  foldr (λ r acc, match acc with regexp.Empty => r | _ => regexp.Cat r acc end)
        regexp.Empty rs.

Fixpoint alt (rs : list regexp.Regexp) : regexp.Regexp :=
  match rs with
  | [] => regexp.Empty
  | [r] => r
  | r :: rs => regexp.Alt r (alt rs)
  end.

Definition word (s : string) : regexp.Regexp := cat (regexp.Lit <$> bytes s).

(** A lower-case hexadecimal digit. *)
Definition hex_digit (c : ascii) : bool := is_digit c || between "a" "f" c.

(** The bytes of a region token. *)
Definition region_byte (c : ascii) : bool :=
  is_lower c || is_digit c || Ascii.eqb c "-".

(** The header that the loop of [buildRequestWithBodyReader] adds for a
    line: its key as [Header.Add] stores it, and its value. *)
Definition header_of_line (line : string) : option (string * string) :=
  match strings.Split line ":" with
  | key :: value :: _ =>
      Some (http.CanonicalMIMEHeaderKey (strings.Trim key " "), strings.Trim value " ")
  | _ => None
  end.

(** The values of the lines whose header is stored under [key], in the
    order of the lines. *)
Definition values_of (key : string) (lines : list string) : list string :=
  omap (λ line, match header_of_line line with
                | Some (k, v) => if decide (k = key) then Some v else None
                | None => None
                end) lines.

(** The loop of [buildRequestWithBodyReader] on the headers alone. *)
Fixpoint header_loop (headers : list string) (h : http.MIMEHeader)
  : outcome http.MIMEHeader :=
  match headers with
  | [] => Ok h
  | header :: headers =>
      key ← (λ x, strings.Trim x " ") <$> at_index (strings.Split header ":") 0;
      value ← (λ x, strings.Trim x " ") <$> at_index (strings.Split header ":") 1;
      header_loop headers (http.Add h key value)
  end.

(** * Examples: the models of the libraries on known values *)

Example Split_examples :
  strings.Split "" LF = [""] ∧
  strings.Split "" ":" = [""] ∧
  strings.Split "Key:" ":" = ["Key"; ""] ∧
  strings.Split "Key: Value" ":" = ["Key"; " Value"] ∧
  strings.Split "a:b:c" ":" = ["a"; "b"; "c"] ∧
  strings.Split ("a" +:+ LF +:+ "b" +:+ LF) LF = ["a"; "b"; ""] ∧
  strings.Split "a--b---c" "--" = ["a"; "b"; "-c"] ∧
  strings.Trim "  Key  " " " = "Key" ∧ strings.Trim "   " " " = "" ∧
  strings.Trim (TAB +:+ " a b ") " " = TAB +:+ " a b".
Proof. vm_compute. repeat split. Qed.

Example url_Parse_examples :
  url.go1_16 "https://some-id.lambda-url.eu-west-1.on.aws/"
    = Some (url.mkURL "https" "" "some-id.lambda-url.eu-west-1.on.aws" "/" false "" "") ∧
  url.go1_16 "HTTP://user:pw@Example.com:8080/a%20b?x=1&y=2#frag"
    = Some (url.mkURL "http" "" "Example.com:8080" "/a b" false "x=1&y=2" "frag") ∧
  url.go1_16 "mailto:someone@example.com"
    = Some (url.mkURL "mailto" "someone@example.com" "" "" false "" "") ∧
  url.go1_16 "some-id.lambda-url.eu-west-1.on.aws/x"
    = Some (url.mkURL "" "" "" "some-id.lambda-url.eu-west-1.on.aws/x" false "" "") ∧
  url.go1_16 "://missing-scheme" = None ∧
  url.go1_16 "http://[::1" = None ∧
  url.go1_16 "http://host:port/" = None ∧
  url.go1_16 "http://a b/" = None ∧
  url.go1_16 "http://x/%zz" = None ∧
  url.go1_16 ("http://x/" +:+ LF) = None ∧
  url.Hostname (url.mkURL "http" "" "Example.com:8080" "/" false "" "") = "Example.com" ∧
  url.Hostname (url.mkURL "http" "" "[::1]:80" "/" false "" "") = "::1".
Proof. vm_compute. repeat split. Qed.


Example Compile_awsRegionRegExp :
  regexp.Compile awsRegionRegExp = Some awsRegionRe ∧
  awsRegionRe =
    cat [ regexp.Capture 1
            (alt [ cat [regexp.Lit "u"; regexp.Lit "s";
                        regexp.Quest (regexp.Capture 2 (word "-gov"))];
                   word "ap"; word "ca"; word "cn"; word "eu"; word "sa" ]);
          regexp.Lit "-";
          regexp.Capture 3
            (alt [ word "central";
                   cat [ regexp.Quest (regexp.Capture 4 (alt [word "north"; word "south"]));
                         regexp.Quest (regexp.Capture 5 (alt [word "east"; word "west"])) ] ]);
          regexp.Lit "-";
          regexp.Digit ] ∧
  regexp.Compile "a??" = None ∧ regexp.Compile "(a" = None ∧ regexp.Compile "a*" = None.
Proof. vm_compute. repeat split. Qed.

Example guessAWSRegion_examples :
  let guess := @guessAWSRegion url.go1_16 in
  guess "https://some-id.lambda-url.eu-west-1.on.aws/" = Ok ("eu-west-1", None) ∧
  guess "https://dejkfjklwejflewfkl.lambda-url.eu-west-3.on.aws/test" = Ok ("eu-west-3", None) ∧
  guess "https://dejkfjklwejflewfkl.lambda-url.us-east-1.on.aws/" = Ok ("us-east-1", None) ∧
  guess "https://dejkfjklwejflewfkl.lambda-url.eu-central-1.on.aws/" = Ok ("eu-central-1", None) ∧
  guess "https://dejkfjklwejflewfkl.lambda-url.eu-south-1.on.aws/" = Ok ("eu-south-1", None) ∧
  guess "https://x.us-gov-west-1.amazonaws.com/" = Ok ("us-gov-west-1", None) ∧
  guess "https://us--7.example/" = Ok ("us--7", None) ∧
  guess "https://some-id.lambda-url.eu-us-2.on.aws/"
    = Ok ("", Some "lambda function URL is malformed, impossible to guess AWS region") ∧
  regexp.FindStringSubmatch awsRegionRe "a.us-gov-northeast-1.b"
    = Some ["us-gov-northeast-1"; "us-gov"; "-gov"; "northeast"; "north"; "east"] ∧
  regexp.FindStringSubmatch awsRegionRe "eu-central-1"
    = Some ["eu-central-1"; "eu"; ""; "central"; ""; ""].
Proof. vm_compute. repeat split. Qed.

(** * Facts about strings *)

Lemma app_cons (c : ascii) (s1 s2 : string) :
  String c s1 +:+ s2 = String c (s1 +:+ s2).
Proof. reflexivity. Qed.

Lemma app_nil_l (s : string) : "" +:+ s = s.
Proof. reflexivity. Qed.

Lemma app_nil_r (s : string) : s +:+ "" = s.
Proof. induction s as [|c s IH]; [done|]. by rewrite app_cons, IH. Qed.

Lemma app_assoc (s1 s2 s3 : string) : (s1 +:+ s2) +:+ s3 = s1 +:+ s2 +:+ s3.
Proof. induction s1 as [|c s1 IH]; [done|]. by rewrite !app_cons, IH. Qed.

Lemma length_app (s1 s2 : string) :
  String.length (s1 +:+ s2) = String.length s1 + String.length s2.
Proof. induction s1 as [|c s1 IH]; [done|]. rewrite app_cons. simpl. by rewrite IH. Qed.

Lemma bytes_app (s1 s2 : string) : bytes (s1 +:+ s2) = bytes s1 ++ bytes s2.
Proof.
  induction s1 as [|c s1 IH]; [done|].
  rewrite app_cons. unfold bytes in *. simpl. by rewrite IH.
Qed.

Lemma of_bytes_bytes (s : string) : of_bytes (bytes s) = s.
Proof. apply String.string_of_list_ascii_of_string. Qed.

Lemma bytes_of_bytes (l : list ascii) : bytes (of_bytes l) = l.
Proof. apply String.list_ascii_of_string_of_list_ascii. Qed.

Lemma length_bytes (s : string) : length (bytes s) = String.length s.
Proof. induction s as [|c s IH]; [done|]. unfold bytes in *. simpl. by rewrite IH. Qed.

Lemma from_app (s1 s2 : string) : strings.from (String.length s1) (s1 +:+ s2) = s2.
Proof.
  unfold strings.from. rewrite bytes_app, <- length_bytes, drop_app_length.
  apply of_bytes_bytes.
Qed.

Lemma to_app (s1 s2 : string) : strings.to (String.length s1) (s1 +:+ s2) = s1.
Proof.
  unfold strings.to. rewrite bytes_app, <- length_bytes, take_app_length.
  apply of_bytes_bytes.
Qed.

(** * The matcher finds the leftmost match of the expression's language *)

Section matcher.
Import regexp.
Context {R : Type}.
Implicit Types (r : Regexp) (k : string → nat → captures → option R).

Lemma search_sound r : ∀ s i caps k x,
  search r s i caps k = Some x →
  ∃ w s' caps', s = w +:+ s' ∧ matches r w ∧ k s' (i + String.length w) caps' = Some x.
Proof.
  induction r as [|c| |r1 IH1 r2 IH2|r1 IH1 r2 IH2|r1 IH1|n r1 IH1];
    intros s i caps k x Hs; simpl in Hs.
  - exists "", s, caps. rewrite Nat.add_0_r. eauto using matches.
  - destruct s as [|c' s]; [done|].
    destruct (Ascii.eqb_spec c c') as [<-|]; [|done].
    exists (String c ""), s, caps. simpl. rewrite Nat.add_1_r. eauto using matches.
  - destruct s as [|c' s]; [done|].
    destruct (is_digit c') eqn:Hd; [|done].
    exists (String c' ""), s, caps. simpl. rewrite Nat.add_1_r. eauto using matches.
  - apply IH1 in Hs as (w1 & s1 & caps1 & -> & Hm1 & Hs).
    apply IH2 in Hs as (w2 & s2 & caps2 & -> & Hm2 & Hs).
    exists (w1 +:+ w2), s2, caps2.
    rewrite app_assoc, length_app, Nat.add_assoc. eauto using matches.
  - destruct (search r1 s i caps k) as [y|] eqn:H1.
    + simplify_eq. apply IH1 in H1 as (w & s' & caps' & -> & Hm & Hk).
      eauto 8 using matches.
    + apply IH2 in Hs as (w & s' & caps' & -> & Hm & Hk). eauto 8 using matches.
  - destruct (search r1 s i caps k) as [y|] eqn:H1.
    + simplify_eq. apply IH1 in H1 as (w & s' & caps' & -> & Hm & Hk).
      eauto 8 using matches.
    + exists "", s, caps. rewrite Nat.add_0_r. eauto using matches.
  - apply IH1 in Hs as (w & s' & caps' & -> & Hm & Hk). eauto 8 using matches.
Qed.

Lemma search_complete r w :
  matches r w → ∀ s' i caps k,
  (∀ caps', is_Some (k s' (i + String.length w) caps')) →
  is_Some (search r (w +:+ s') i caps k).
Proof.
  induction 1 as [|c|c Hd|r1 r2 w1 w2 _ IH1 _ IH2|r1 r2 w _ IH|r1 r2 w _ IH
                 |r1 w _ IH|r1|n r1 w _ IH]; intros s' i caps k Hk; simpl.
  - specialize (Hk caps). by rewrite Nat.add_0_r in Hk.
  - rewrite Ascii.eqb_refl. specialize (Hk caps). by rewrite Nat.add_1_r in Hk.
  - rewrite Hd. specialize (Hk caps). by rewrite Nat.add_1_r in Hk.
  - rewrite app_assoc. apply IH1. intros caps1. apply IH2. intros caps2.
    specialize (Hk caps2). by rewrite length_app, Nat.add_assoc in Hk.
  - destruct (IH s' i caps k Hk) as [y ->]. eauto.
  - destruct (search r1 (w +:+ s') i caps k); eauto.
  - destruct (IH s' i caps k Hk) as [y ->]. eauto.
  - rewrite app_nil_l. destruct (search r1 s' i caps k); [eauto|].
    specialize (Hk caps). by rewrite Nat.add_0_r in Hk.
  - apply IH. intros caps'. apply Hk.
Qed.

End matcher.

Lemma match_here_sound r s i j caps :
  regexp.match_here r s i = Some (j, caps) →
  ∃ w s', s = w +:+ s' ∧ regexp.matches r w ∧ j = i + String.length w.
Proof.
  intros (w & s' & caps' & -> & Hm & Hk)%search_sound. simplify_eq. eauto.
Qed.

Lemma match_here_complete r w s' i :
  regexp.matches r w → is_Some (regexp.match_here r (w +:+ s') i).
Proof. intros Hm. apply search_complete; eauto. Qed.

Lemma find_sound r : ∀ s i a b caps,
  regexp.find r s i = Some (a, b, caps) →
  ∃ pre w post, s = pre +:+ w +:+ post ∧ regexp.matches r w ∧
    a = i + String.length pre ∧ b = a + String.length w ∧
    ∀ pre' w' post', s = pre' +:+ w' +:+ post' → regexp.matches r w' →
      String.length pre ≤ String.length pre'.
Proof.
  induction s as [|c s IH]; intros i a b caps Hf; simpl in Hf.
  - destruct (regexp.match_here r "" i) as [[j caps']|] eqn:Hh; [|done].
    simplify_eq. apply match_here_sound in Hh as (w & s' & Hs & Hm & ->).
    exists "", w, s'. rewrite Nat.add_0_r. simpl. repeat split; auto with lia.
  - destruct (regexp.match_here r (String c s) i) as [[j caps']|] eqn:Hh.
    + simplify_eq. apply match_here_sound in Hh as (w & s' & Hs & Hm & ->).
      exists "", w, s'. rewrite Nat.add_0_r. simpl. repeat split; auto with lia.
    + apply IH in Hf as (pre & w & post & -> & Hm & -> & -> & Hmin).
      exists (String c pre), w, post. simpl. repeat split; auto with lia.
      intros [|c' pre'] w' post' Hs Hm'.
      * rewrite app_nil_l in Hs.
        destruct (match_here_complete r w' post' i Hm') as [y Hy].
        rewrite <- Hs in Hy. congruence.
      * rewrite app_cons in Hs. simplify_eq. simpl.
        apply le_n_S. eauto.
Qed.

Lemma find_complete r w pre post : ∀ i,
  regexp.matches r w → is_Some (regexp.find r (pre +:+ w +:+ post) i).
Proof.
  induction pre as [|c pre IH]; intros i Hm.
  - rewrite app_nil_l.
    destruct (match_here_complete r w post i Hm) as [[j caps] Hy].
    destruct (w +:+ post); simpl; rewrite Hy; eauto.
  - rewrite app_cons. simpl. destruct (regexp.match_here _ _ _) as [[j caps]|]; eauto.
Qed.

Lemma slice_app (pre w post : string) :
  regexp.slice (pre +:+ w +:+ post) (String.length pre)
               (String.length pre + String.length w) = w.
Proof.
  unfold regexp.slice. rewrite from_app.
  replace (String.length pre + String.length w - String.length pre)
    with (String.length w) by lia.
  apply to_app.
Qed.

(** [FindStringSubmatch] returns a nil slice exactly when no part of the input
    is in the language, and otherwise starts with the leftmost match. *)
Lemma FindStringSubmatch_None r s :
  regexp.FindStringSubmatch r s = None ↔
  ∀ pre w post, s = pre +:+ w +:+ post → ¬ regexp.matches r w.
Proof.
  unfold regexp.FindStringSubmatch. split.
  - intros Hf pre w post -> Hm.
    destruct (find_complete r w pre post 0 Hm) as [[[a b] caps] Hy].
    rewrite Hy in Hf. done.
  - intros Hno. destruct (regexp.find r s 0) as [[[a b] caps]|] eqn:Hf; [|done].
    apply find_sound in Hf as (pre & w & post & -> & Hm & _). by destruct (Hno pre w post).
Qed.

Lemma FindStringSubmatch_Some r s result :
  regexp.FindStringSubmatch r s = Some result →
  ∃ pre w post groups, result = w :: groups ∧ s = pre +:+ w +:+ post ∧
    regexp.matches r w ∧
    ∀ pre' w' post', s = pre' +:+ w' +:+ post' → regexp.matches r w' →
      String.length pre ≤ String.length pre'.
Proof.
  unfold regexp.FindStringSubmatch. intros Hf.
  destruct (regexp.find r s 0) as [[[a b] caps]|] eqn:Hfind; [|done].
  simpl in Hf. simplify_eq.
  apply find_sound in Hfind as (pre & w & post & -> & Hm & -> & -> & Hmin).
  eexists pre, w, post, _. split; [|by eauto].
  f_equal. simpl. apply slice_app.
Qed.

(** * The language of the pattern is the region token grammar *)

Lemma is_digit_elem (c : ascii) : is_digit c = true ↔ c ∈ bytes "0123456789".
Proof.
  split.
  - destruct c as [[] [] [] [] [] [] [] []]; vm_compute; intros ?; try done;
      repeat first [apply list_elem_of_here | apply list_elem_of_further].
  - intros Hc. vm_compute in Hc.
    repeat (apply elem_of_cons in Hc as [->|Hc]; [done|]).
    by apply elem_of_nil in Hc.
Qed.

Lemma matches_lang r w : regexp.matches r w ↔ w ∈ regexp.lang r.
Proof.
  split.
  - induction 1; cbn [regexp.lang].
    + apply list_elem_of_here.
    + apply list_elem_of_here.
    + apply list_elem_of_fmap. eexists. split; [done|]. by apply is_digit_elem.
    + apply list_elem_of_bind. eexists. split; [|done].
      apply list_elem_of_bind. eexists. split; [|done]. apply list_elem_of_here.
    + apply elem_of_app. by left.
    + apply elem_of_app. by right.
    + apply elem_of_app. by left.
    + apply elem_of_app. right. apply list_elem_of_here.
    + done.
  - revert w. induction r as [|c| |r1 IH1 r2 IH2|r1 IH1 r2 IH2|r1 IH1|n r1 IH1];
      intros w Hw; cbn [regexp.lang] in Hw.
    + apply list_elem_of_singleton in Hw as ->. constructor.
    + apply list_elem_of_singleton in Hw as ->. constructor.
    + apply list_elem_of_fmap in Hw as (c & -> & Hc). constructor.
      by apply is_digit_elem.
    + apply list_elem_of_bind in Hw as (w1 & Hw & Hw1).
      apply list_elem_of_bind in Hw as (w2 & Hw & Hw2).
      apply list_elem_of_singleton in Hw as ->. constructor; auto.
    + apply elem_of_app in Hw as [Hw|Hw]; [apply regexp.matches_Alt_l|apply regexp.matches_Alt_r]; auto.
    + apply elem_of_app in Hw as [Hw|Hw].
      * apply regexp.matches_Quest_some; auto.
      * apply list_elem_of_singleton in Hw as ->. apply regexp.matches_Quest_none.
    + constructor; auto.
Qed.

Lemma included_spec l1 l2 w : included l1 l2 = true → w ∈ l1 → w ∈ l2.
Proof.
  unfold included. rewrite forallb_forall. intros Hincl Hw%list_elem_of_In.
  apply Hincl in Hw. apply existsb_exists in Hw as (w' & Hw' & ->%String.eqb_eq).
  by apply list_elem_of_In.
Qed.

Lemma awsRegion_tokens w : regexp.matches awsRegionRe w ↔ w ∈ region_tokens.
Proof.
  rewrite matches_lang. split; apply included_spec; by vm_compute.
Qed.

Lemma MustCompile_awsRegionRegExp : regexp.MustCompile awsRegionRegExp = Ok awsRegionRe.
Proof. by vm_compute. Qed.

Lemma has_region_token_matches hostname :
  has_region_token hostname ↔
  ∃ pre w post, hostname = pre +:+ w +:+ post ∧ regexp.matches awsRegionRe w.
Proof.
  unfold has_region_token, occurs_at. split.
  - intros (pre & t & Ht & post & Hs). exists pre, t, post.
    split; [done|]. by apply awsRegion_tokens.
  - intros (pre & w & post & Hs & Hm). exists pre, w.
    split; [by apply awsRegion_tokens|]. by exists post.
Qed.

(** [guessAWSRegion] in terms of the grammar, for a URL that parses. *)
Lemma guessAWSRegion_parsed `{url.Parser} lambdaURL u :
  url.Parse lambdaURL = Some u →
  (¬ has_region_token (url.Hostname u) ∧
     guessAWSRegion lambdaURL
     = Ok ("", Some "lambda function URL is malformed, impossible to guess AWS region"))
  ∨ (∃ t, first_region_token t (url.Hostname u) ∧
          guessAWSRegion lambdaURL = Ok (t, None)).
Proof.
  intros Hu. unfold guessAWSRegion. rewrite Hu, MustCompile_awsRegionRegExp. simpl.
  destruct (regexp.FindStringSubmatch awsRegionRe (url.Hostname u)) as [result|] eqn:Hf.
  - right. apply FindStringSubmatch_Some in Hf
      as (pre & w & post & groups & -> & Hs & Hm & Hmin).
    exists w. split; [|done]. exists pre. repeat split.
    + by apply awsRegion_tokens.
    + by exists post.
    + intros pre' t' Ht' [post' Hs']. eapply Hmin; [done|]. by apply awsRegion_tokens.
  - left. split; [|done]. rewrite has_region_token_matches.
    intros (pre & w & post & Hs & Hm).
    by eapply FindStringSubmatch_None in Hf.
Qed.

(** One place holds at most one token: no token is the start of another. *)
Lemma HasPrefix_spec s p : strings.HasPrefix s p = true ↔ ∃ post, s = p +:+ post.
Proof.
  revert s. induction p as [|c p IH]; intros s; simpl.
  - split; [eauto|]. by destruct s.
  - destruct s as [|c' s].
    + split; [done|]. by intros [post ?].
    + simpl. rewrite andb_true_iff, IH. split.
      * intros [->%Ascii.eqb_eq [post ->]]. by exists post.
      * intros [post Hs]. rewrite app_cons in Hs. simplify_eq.
        split; [apply Ascii.eqb_refl|eauto].
Qed.

Lemma Contains_spec s t :
  strings.Contains s t = true ↔ ∃ pre post, s = pre +:+ t +:+ post.
Proof.
  induction s as [|c s IH]; cbn [strings.Contains];
    rewrite orb_true_iff, HasPrefix_spec.
  - split.
    + intros [[post ->]|]; [|done]. by exists "", post.
    + intros ([|c pre] & post & Hs); [|done]. left. by exists post.
  - rewrite IH. split.
    + intros [[post ->]|(pre & post & ->)]; [by exists "", post|].
      by exists (String c pre), post.
    + intros ([|c' pre] & post & Hs); [left; by exists post|].
      rewrite app_cons in Hs. simplify_eq. right. by exists pre, post.
Qed.

Lemma app_eq_prefix (t1 t2 post1 post2 : string) :
  t1 +:+ post1 = t2 +:+ post2 →
  strings.HasPrefix t1 t2 = true ∨ strings.HasPrefix t2 t1 = true.
Proof.
  revert t2. induction t1 as [|c t1 IH]; intros [|c' t2] Hs; simpl; auto.
  rewrite !app_cons in Hs. simplify_eq. rewrite Ascii.eqb_refl. simpl. eauto.
Qed.

Lemma app_eq_length (pre1 pre2 s1 s2 : string) :
  pre1 +:+ s1 = pre2 +:+ s2 → String.length pre1 = String.length pre2 →
  pre1 = pre2 ∧ s1 = s2.
Proof.
  revert pre2. induction pre1 as [|c pre1 IH]; intros [|c' pre2] Hs Hl; try done.
  rewrite !app_cons in Hs. simplify_eq/=. by destruct (IH pre2) as [-> ->].
Qed.

Lemma region_tokens_prefix_free t1 t2 :
  t1 ∈ region_tokens → t2 ∈ region_tokens →
  strings.HasPrefix t1 t2 = true → t1 = t2.
Proof.
  assert (prefix_free region_tokens = true) as Hpf by (by vm_compute).
  unfold prefix_free in Hpf. rewrite forallb_forall in Hpf.
  intros H1%list_elem_of_In H2%list_elem_of_In Hp.
  specialize (Hpf _ H1). rewrite forallb_forall in Hpf. specialize (Hpf _ H2).
  rewrite Hp in Hpf. by apply String.eqb_eq.
Qed.

Lemma first_region_token_unique t1 t2 hostname :
  first_region_token t1 hostname → first_region_token t2 hostname → t1 = t2.
Proof.
  intros (pre1 & Ht1 & [post1 Hs1] & Hmin1) (pre2 & Ht2 & [post2 Hs2] & Hmin2).
  assert (String.length pre1 = String.length pre2) as Hl.
  { apply Nat.le_antisymm.
    - apply (Hmin1 pre2 t2); [done|by exists post2].
    - apply (Hmin2 pre1 t1); [done|by exists post1]. }
  rewrite Hs1 in Hs2. apply app_eq_length in Hs2 as [_ Hs2]; [|done].
  apply app_eq_prefix in Hs2 as [Hp|Hp].
  - by apply region_tokens_prefix_free.
  - symmetry. by apply region_tokens_prefix_free.
Qed.

Lemma has_region_token_decide hostname :
  has_region_token hostname ↔ has_region_token_b hostname = true.
Proof.
  unfold has_region_token, has_region_token_b, occurs_at. rewrite existsb_exists. split.
  - intros (pre & t & Ht & post & ->). exists t.
    split; [by apply list_elem_of_In|]. apply Contains_spec. eauto.
  - intros (t & Ht & (pre & post & ->)%Contains_spec). exists pre, t.
    split; [by apply list_elem_of_In|]. eauto.
Qed.

(** C4. For a URL that parses and whose hostname contains a substring of the
    region token grammar, [guessAWSRegion] returns the first such substring
    (the one no other starts before, which is unique) and a nil error; for
    the hostname [some-id.lambda-url.eu-west-1.on.aws] it returns
    [eu-west-1]. *)
Theorem guessAWSRegion_first_token `{url.Parser} (lambdaURL : string) (u : url.URL) :
  url.Parse lambdaURL = Some u →
  (has_region_token (url.Hostname u) →
   ∃ t, first_region_token t (url.Hostname u) ∧
        (∀ t', first_region_token t' (url.Hostname u) → t' = t) ∧
        guessAWSRegion lambdaURL = Ok (t, None)) ∧
  (url.Hostname u = "some-id.lambda-url.eu-west-1.on.aws" →
   guessAWSRegion lambdaURL = Ok ("eu-west-1", None)).
Proof.
  intros Hu. split.
  - intros Hhas.
    destruct (guessAWSRegion_parsed lambdaURL u Hu) as [[Hno _]|(t & Hfirst & Hg)]; [done|].
    exists t. repeat split; [done| |done].
    intros t' Hfirst'. by eapply first_region_token_unique.
  - intros Hhost. unfold guessAWSRegion.
    rewrite Hu, MustCompile_awsRegionRegExp. simpl. rewrite Hhost. by vm_compute.
Qed.

Lemma guessAWSRegion_first_token_witness :
  url.go1_16 "https://some-id.lambda-url.eu-west-1.on.aws/"
    = Some (url.mkURL "https" "" "some-id.lambda-url.eu-west-1.on.aws" "/" false "" "") ∧
  @guessAWSRegion url.go1_16 "https://some-id.lambda-url.eu-west-1.on.aws/"
    = Ok ("eu-west-1", None).
Proof.
  split; [reflexivity|].
  apply (guessAWSRegion_first_token (H := url.go1_16)
           "https://some-id.lambda-url.eu-west-1.on.aws/"
           (url.mkURL "https" "" "some-id.lambda-url.eu-west-1.on.aws" "/" false "" ""));
    reflexivity.
Defined.

(** C5. For a URL that parses and whose hostname contains no substring of the
    region token grammar, [guessAWSRegion] returns the empty string and the
    error; no region is put in its place. *)
Theorem guessAWSRegion_no_token `{url.Parser} (lambdaURL : string) (u : url.URL) :
  url.Parse lambdaURL = Some u →
  ¬ has_region_token (url.Hostname u) →
  guessAWSRegion lambdaURL
  = Ok ("", Some "lambda function URL is malformed, impossible to guess AWS region").
Proof.
  intros Hu Hno.
  destruct (guessAWSRegion_parsed lambdaURL u Hu) as [[_ Hg]|(t & Hfirst & _)]; [done|].
  destruct Hno. destruct Hfirst as (pre & Ht & Hocc & _). by exists pre, t.
Qed.

Lemma guessAWSRegion_no_token_witness :
  @guessAWSRegion url.go1_16 "https://some-id.lambda-url.eu-us-2.on.aws/"
  = Ok ("", Some "lambda function URL is malformed, impossible to guess AWS region").
Proof.
  apply (guessAWSRegion_no_token (H := url.go1_16)
           "https://some-id.lambda-url.eu-us-2.on.aws/"
           (url.mkURL "https" "" "some-id.lambda-url.eu-us-2.on.aws" "/" false "" "")).
  - reflexivity.
  - rewrite has_region_token_decide. vm_compute. discriminate.
Defined.

(** C10. [guessAWSRegion] is not total: for an input that [url.Parse]
    rejects, the error is dropped and [u.Hostname()] dereferences the nil
    URL, a run-time panic instead of the error result. *)
Theorem guessAWSRegion_nil_dereference `{url.Parser} (lambdaURL : string) :
  url.Parse lambdaURL = None →
  guessAWSRegion lambdaURL = Panic NilDereference.
Proof.
  intros Hu. unfold guessAWSRegion. by rewrite Hu, MustCompile_awsRegionRegExp.
Qed.

Lemma guessAWSRegion_nil_dereference_witness :
  let lambdaURL := "https://some-id.lambda-url.eu-west-1.on.aws/" +:+ LF in
  url.go1_16 lambdaURL = None ∧
  @guessAWSRegion url.go1_16 lambdaURL = Panic NilDereference.
Proof.
  split; [reflexivity|].
  apply (guessAWSRegion_nil_dereference (H := url.go1_16)). reflexivity.
Defined.

Example sha256_examples :
  hex.EncodeToString (sha256.Sum256 "")
    = "e3b0c44298fc1c149afbf4c8996fb92427ae41e4649b934ca495991b7852b855" ∧
  hex.EncodeToString (sha256.Sum256 "abc")
    = "ba7816bf8f01cfea414140de5dae2223b00361a396177a9cb410ff61f20015ad" ∧
  hex.EncodeToString (sha256.Sum256 "{}")
    = "44136fa355b3678a1146ad16f7e8649e94fb4fc21fe77e8310c060f61caaff8a" ∧
  hex.EncodeToString (sha256.Sum256
      "abcdbcdecdefdefgefghfghighijhijkijkljklmklmnlmnomnopnopq")
    = "248d6a61d20638b8e5c026930c3e6039a33ce45964ff2167f6ecedd419db06c1".
Proof. vm_compute. repeat split. Qed.

Example buildRequest_examples :
  let build hl := @buildRequest url.go1_16 (mkFlags "" "" "GET" hl)
                    "https://some-id.lambda-url.eu-west-1.on.aws/" "POST" "eu-west-1" in
  build "" "{}" [] = Panic (IndexOutOfRange 1 1) ∧
  (build "Accept: *" "{}" [] ≫= λ '(req, h, σ),
     Ok (http.Header req, http.ContentLength req, http.Body req, http.Host req, h, σ))
  = Ok ({["Accept" := ["*"]]}, 2%Z, http.NopCloser 0,
        "some-id.lambda-url.eu-west-1.on.aws",
        "44136fa355b3678a1146ad16f7e8649e94fb4fc21fe77e8310c060f61caaff8a",
        [strings.mkReader "{}" 2]) ∧
  (build ("content-type:application/json" +:+ LF +:+ " x-a :  b c  ") "" [] ≫= λ '(req, h, σ),
     Ok (http.Header req, http.ContentLength req, http.Body req))
  = Ok ({["Content-Type" := ["application/json"]; "X-A" := ["b c"]]}, 0%Z, http.NoBody) ∧
  (build ("frifjlr:" +:+ LF +:+ "Accept: a" +:+ LF +:+ "accept:b") "" [] ≫= λ '(req, h, σ),
     Ok (http.Header req))
  = Ok {["Frifjlr" := [""]; "Accept" := ["a"; "b"]]}.
Proof. vm_compute. repeat split. Qed.

Example SignHTTP_test_vectors :
  let sign (extra : http.MIMEHeader) :=
    req ← @http.NewRequest url.go1_16 "POST"
            "https://some-id.lambda-url.eu-west-1.on.aws/" 0 [strings.mkReader "{}" 0];
    let req := http.with_Header req extra in
    let body := hex.EncodeToString (sha256.Sum256 "{}") in
    let q := http.Header (v4.SignHTTP testCredentials req body "lambda" "eu-west-1" 0) in
    Some (http.Get q "Authorization", http.Get q "X-Amz-Date") in
  sign ∅ = Some
    ("AWS4-HMAC-SHA256 Credential=AKID/19700101/eu-west-1/lambda/aws4_request, SignedHeaders=content-length;host;x-amz-date;x-amz-security-token, Signature=89d2a4858dac64a1699891c494929097f1c00e65e3bf8dbb99cc625bd7baad12",
     "19700101T000000Z") ∧
  sign {["Content-Type" := ["application/json"]]} = Some
    ("AWS4-HMAC-SHA256 Credential=AKID/19700101/eu-west-1/lambda/aws4_request, SignedHeaders=content-length;content-type;host;x-amz-date;x-amz-security-token, Signature=a4a65a93c8c2746e2a594ecbe77c0adfcc934735a0c46260fb265c4a8d9ab811",
     "19700101T000000Z") ∧
  v4.TS 1667347200 = "20221102T000000Z" ∧ v4.TS 951782399 = "20000228T235959Z" ∧
  v4.TS 951868800 = "20000301T000000Z" ∧ v4.TS 1709251199 = "20240229T235959Z".
Proof. vm_compute. repeat split. Qed.

(** * Building the request *)

Lemma HasPrefix_nil (s : string) : strings.HasPrefix s "" = true.
Proof. by destruct s. Qed.

Lemma pieces_byte (c : ascii) (s : string) :
  if strings.Contains s (String c "")
  then ∃ p q qs, strings.pieces (String c "") s 0 = (p, q :: qs)
  else strings.pieces (String c "") s 0 = (s, []).
Proof.
  induction s as [|c' s IH]; [done|].
  cbn [strings.Contains strings.pieces strings.HasPrefix].
  destruct (Ascii.eqb c c') eqn:Hc; simpl.
  - assert (strings.HasPrefix s "" = true) as -> by by destruct s.
    simpl. destruct (strings.pieces (String c "") s 0) as [p ps]. eauto.
  - destruct (strings.Contains s (String c "")).
    + destruct IH as (p & q & qs & ->). eauto.
    + by rewrite IH.
Qed.

Lemma Split_without_byte (c : ascii) (s : string) :
  strings.Contains s (String c "") = false → strings.Split s (String c "") = [s].
Proof.
  intros Hc. pose proof (pieces_byte c s) as Hp. rewrite Hc in Hp.
  unfold strings.Split. by rewrite Hp.
Qed.

Lemma Split_without_colon (line : string) :
  strings.Contains line ":" = false → strings.Split line ":" = [line].
Proof. apply (Split_without_byte ":"). Qed.

Lemma Split_with_colon (line : string) :
  strings.Contains line ":" = true →
  ∃ key value rest, strings.Split line ":" = key :: value :: rest.
Proof.
  intros Hc. pose proof (pieces_byte ":" line) as Hp. rewrite Hc in Hp.
  destruct Hp as (p & q & qs & Hp). unfold strings.Split. rewrite Hp. eauto.
Qed.

Lemma range_headers_with_Body headers : ∀ req b,
  range_headers headers (http.with_Body req b)
  = (λ req, http.with_Body req b) <$> range_headers headers req.
Proof.
  induction headers as [|header headers IH]; intros req b; [done|].
  cbn [range_headers].
  destruct (at_index (strings.Split header ":") 0) as [key| |]; [|done..].
  destruct (at_index (strings.Split header ":") 1) as [value| |]; [|done..].
  simpl. apply (IH (http.with_Header req _) b).
Qed.

Lemma range_headers_fields headers : ∀ req req',
  range_headers headers req = Ok req' →
  http.Method req' = http.Method req ∧ http.URL req' = http.URL req ∧
  http.Body req' = http.Body req ∧ http.ContentLength req' = http.ContentLength req ∧
  http.Host req' = http.Host req.
Proof.
  induction headers as [|header headers IH]; intros req req' Hr.
  - by simplify_eq/=.
  - cbn [range_headers] in Hr.
    destruct (at_index (strings.Split header ":") 0) as [key| |]; [|done..].
    destruct (at_index (strings.Split header ":") 1) as [value| |]; [|done..].
    simpl in Hr. by apply IH in Hr.
Qed.

(** The loop returns when every line has a colon, and panics at the first
    line that has none. *)
Lemma range_headers_returns headers : ∀ req,
  (∀ line, line ∈ headers → strings.Contains line ":" = true) →
  returns (range_headers headers req).
Proof.
  induction headers as [|header headers IH]; intros req Hall; [by eexists|].
  cbn [range_headers].
  destruct (Split_with_colon header) as (key & value & rest & ->).
  { apply Hall, list_elem_of_here. }
  simpl. apply IH. intros line Hl. by apply Hall, list_elem_of_further.
Qed.

Lemma range_headers_panics headers : ∀ req line,
  line ∈ headers → strings.Contains line ":" = false →
  range_headers headers req = Panic (IndexOutOfRange 1 1).
Proof.
  induction headers as [|header headers IH]; intros req line Hin Hc.
  - by apply elem_of_nil in Hin.
  - cbn [range_headers]. destruct (strings.Contains header ":") eqn:Hh.
    + destruct (Split_with_colon header Hh) as (key & value & rest & ->). simpl.
      apply elem_of_cons in Hin as [->|Hin]; [congruence|]. by eapply IH.
    + by rewrite (Split_without_colon header Hh).
Qed.

Lemma NewRequest_fresh `{url.Parser} method url body σ :
  http.NewRequest method url (length σ) (σ ++ [strings.mkReader body 0])
  = (λ req, http.with_Body req (body_of (String.length body) (length σ)))
    <$> new_request method url (String.length body).
Proof.
  unfold http.NewRequest, new_request.
  rewrite lookup_app_r, Nat.sub_diag by done. simpl.
  destruct (negb _); [done|]. destruct (url.Parse url) as [u|]; [|done].
  simpl. unfold strings.Len, http.with_Body, body_of. simpl.
  by rewrite Nat.sub_0_r.
Qed.

Lemma io_Copy_fresh body σ :
  io_Copy sha256.New (length σ) (σ ++ [strings.mkReader body 0])
  = (body, σ ++ [strings.mkReader body (String.length body)]).
Proof.
  unfold io_Copy. rewrite lookup_app_r, Nat.sub_diag by done. simpl.
  unfold strings.unread, strings.from. simpl. rewrite drop_0, of_bytes_bytes. f_equal.
  rewrite insert_app_r_alt, Nat.sub_diag by done. done.
Qed.

(** [buildRequest] in closed form: it exits when the request cannot be made,
    runs the header loop, and returns the hash of the whole body, leaving the
    body reader it gave to the request at its end. *)
Lemma buildRequest_eq `{url.Parser} args lambdaURL requestMethod region requestBody σ :
  buildRequest args lambdaURL requestMethod region requestBody σ
  = match new_request requestMethod lambdaURL (String.length requestBody) with
    | None => Exit 1
    | Some req0 =>
        req ← range_headers (strings.Split (headerList args) LF) req0;
        Ok (http.with_Body req (body_of (String.length requestBody) (length σ)),
            hex.EncodeToString (sha256.Sum256 requestBody),
            σ ++ [strings.mkReader requestBody (String.length requestBody)])
    end.
Proof.
  unfold buildRequest, strings_NewReader, buildRequestWithBodyReader.
  rewrite NewRequest_fresh, io_Copy_fresh.
  destruct (new_request _ _ _) as [req0|]; [|done]. simpl.
  rewrite range_headers_with_Body.
  by destruct (range_headers _ req0).
Qed.

Lemma new_request_Some `{url.Parser} method url len u :
  method = "" ∨ http.validMethod method = true →
  url.Parse url = Some u →
  ∃ req0, new_request method url len = Some req0 ∧
    http.Header req0 = ∅ ∧ http.ContentLength req0 = Z.of_nat len.
Proof.
  intros Hm Hu. unfold new_request. rewrite Hu.
  assert (http.validMethod (if String.eqb method "" then "GET" else method) = true) as ->.
  { destruct Hm as [->|Hm]; [done|]. by destruct (String.eqb method ""). }
  simpl. eauto.
Qed.

Lemma new_request_fields `{url.Parser} method url len req0 :
  new_request method url len = Some req0 →
  http.Header req0 = ∅ ∧ http.ContentLength req0 = Z.of_nat len.
Proof.
  unfold new_request. destruct (negb _); [done|].
  destruct (url.Parse url); [|done]. simpl. by intros [= <-].
Qed.

(** A header line without a colon stops the build: by the panic of the
    index [1] into a slice of length 1 when the request could be made, by
    [os.Exit(1)] when it could not. *)
Lemma buildRequest_line_without_colon `{url.Parser} args lambdaURL requestMethod
    region requestBody σ line :
  line ∈ strings.Split (headerList args) LF →
  strings.Contains line ":" = false →
  buildRequest args lambdaURL requestMethod region requestBody σ
  = match new_request requestMethod lambdaURL (String.length requestBody) with
    | Some _ => Panic (IndexOutOfRange 1 1)
    | None => Exit 1
    end.
Proof.
  intros Hin Hc. rewrite buildRequest_eq.
  destruct (new_request _ _ _) as [req0|]; [|done].
  by rewrite (range_headers_panics _ req0 line Hin Hc).
Qed.

(** C1. With the inputs of [TestSignRequest] (the flags at their defaults, so
    an empty header text) [buildRequest] does not return a request to sign:
    the URL is accepted, and the header loop panics on the index [1] into
    the one-element split of the empty line. *)
Theorem TestSignRequest_panics `{url.Parser} (σ : heap) (u : url.URL) :
  url.Parse "https://some-id.lambda-url.eu-west-1.on.aws/" = Some u →
  TestSignRequest σ = Panic (IndexOutOfRange 1 1).
Proof.
  intros Hu. unfold TestSignRequest.
  rewrite (buildRequest_line_without_colon flag_defaults _ _ _ _ σ "");
    [|apply list_elem_of_here|done].
  by destruct (new_request_Some "POST" "https://some-id.lambda-url.eu-west-1.on.aws/"
                 (String.length "{}") u) as (req0 & -> & _); [right|..].
Qed.

Lemma TestSignRequest_panics_witness :
  @TestSignRequest url.go1_16 [] = Panic (IndexOutOfRange 1 1).
Proof.
  apply (TestSignRequest_panics (H := url.go1_16) []
           (url.mkURL "https" "" "some-id.lambda-url.eu-west-1.on.aws" "/" false "" "")).
  reflexivity.
Defined.

(** C2. A line of the header text without a colon aborts the build of the
    request: when the method and the URL are accepted, [buildRequest] panics
    with an index out of range. *)
Theorem buildRequest_aborts_without_colon `{url.Parser} (args : flags)
    (lambdaURL requestMethod region requestBody : string) (σ : heap)
    (u : url.URL) (line : string) :
  requestMethod = "" ∨ http.validMethod requestMethod = true →
  url.Parse lambdaURL = Some u →
  line ∈ strings.Split (headerList args) LF →
  strings.Contains line ":" = false →
  buildRequest args lambdaURL requestMethod region requestBody σ
  = Panic (IndexOutOfRange 1 1).
Proof.
  intros Hm Hu Hin Hc.
  rewrite (buildRequest_line_without_colon _ _ _ _ _ _ line Hin Hc).
  by destruct (new_request_Some requestMethod lambdaURL (String.length requestBody) u)
    as (req0 & -> & _).
Qed.

Lemma buildRequest_aborts_without_colon_witness :
  @buildRequest url.go1_16
    (mkFlags "" "" "GET" ("Accept: *" +:+ LF +:+ "fkeofew??"))
    "https://example.com" "GET" "eu-west-1" "" []
  = Panic (IndexOutOfRange 1 1).
Proof.
  apply (buildRequest_aborts_without_colon (H := url.go1_16) _ _ _ _ _ _
           (url.mkURL "https" "" "example.com" "" false "" "") "fkeofew??").
  - right. reflexivity.
  - reflexivity.
  - vm_compute. apply list_elem_of_further, list_elem_of_here.
  - reflexivity.
Defined.

Lemma range_headers_one (line key value : string) (rest : list string) req :
  strings.Split line ":" = key :: value :: rest →
  range_headers [line] req
  = Ok (http.with_Header req
          (http.Add (http.Header req) (strings.Trim key " ") (strings.Trim value " "))).
Proof. intros Hs. cbn [range_headers]. by rewrite Hs. Qed.

(** The headers of the request that [buildRequest] returns for a header text
    of one line. *)
Lemma buildRequest_one_line `{url.Parser} args lambdaURL requestMethod region
    requestBody σ req h σ' key value rest :
  strings.Split (headerList args) LF = [headerList args] →
  strings.Split (headerList args) ":" = key :: value :: rest →
  buildRequest args lambdaURL requestMethod region requestBody σ = Ok (req, h, σ') →
  http.Header req = http.Add ∅ (strings.Trim key " ") (strings.Trim value " ").
Proof.
  intros Hlines Hsplit. rewrite buildRequest_eq, Hlines.
  destruct (new_request _ _ _) as [req0|] eqn:Hn; [|done].
  apply new_request_fields in Hn as [Hh _].
  rewrite (range_headers_one _ key value rest) by done. simpl.
  intros [= <- _ _]. simpl. by rewrite Hh.
Qed.

(** Where the header line has one colon and only spaces around its key and
    its value, the loop adds the key and the value without these spaces. *)
Lemma Split_key_value (key value : string) :
  strings.Contains key ":" = false → strings.Contains value ":" = false →
  strings.Split (key +:+ ":" +:+ value) ":" = [key; value].
Proof.
  intros Hk Hv. unfold strings.Split.
  assert (strings.pieces ":" (key +:+ ":" +:+ value) 0 = (key, [value])) as ->; [|done].
  induction key as [|c key IH].
  - rewrite app_nil_l. change (":" +:+ value) with (String ":" value).
    cbn [strings.pieces strings.HasPrefix]. simpl.
    assert (strings.HasPrefix value "" = true) as -> by by destruct value.
    pose proof (pieces_byte ":" value) as Hp. rewrite Hv in Hp. by rewrite Hp.
  - rewrite app_cons. cbn [strings.Contains strings.HasPrefix] in Hk.
    apply orb_false_iff in Hk as [Hc Hk].
    rewrite HasPrefix_nil, andb_true_r in Hc.
    cbn [strings.pieces strings.HasPrefix]. rewrite Hc. simpl. by rewrite IH.
Qed.

Lemma mem_byte_space (c : ascii) : mem_byte c " " = Ascii.eqb c " ".
Proof.
  unfold mem_byte. change (bytes " ") with [" "%char].
  cbn [existsb]. apply orb_false_r.
Qed.

Lemma spaces_S (n : nat) : spaces (S n) = String " " (spaces n).
Proof. done. Qed.

Lemma TrimLeft_spaces (n : nat) (s : string) :
  strings.HasPrefix s " " = false → strings.TrimLeft (spaces n +:+ s) " " = s.
Proof.
  intros Hs. induction n as [|n IH].
  - change (spaces 0 +:+ s) with s. destruct s as [|c s]; [done|].
    cbn [strings.TrimLeft strings.HasPrefix] in *.
    rewrite HasPrefix_nil, andb_true_r, Ascii.eqb_sym in Hs.
    by rewrite mem_byte_space, Hs.
  - rewrite spaces_S, app_cons. cbn [strings.TrimLeft].
    by rewrite mem_byte_space, Ascii.eqb_refl.
Qed.

Lemma TrimLeft_spaces_only (n : nat) : strings.TrimLeft (spaces n) " " = "".
Proof.
  induction n as [|n IH]; [done|].
  rewrite spaces_S. cbn [strings.TrimLeft]. by rewrite mem_byte_space, Ascii.eqb_refl.
Qed.

Lemma TrimRight_spaces_only (m : nat) : strings.TrimRight (spaces m) " " = "".
Proof.
  induction m as [|m IH]; [done|].
  rewrite spaces_S. cbn [strings.TrimRight]. by rewrite IH, mem_byte_space, Ascii.eqb_refl.
Qed.

Lemma TrimRight_spaces (m : nat) (s : string) :
  (∀ s', s ≠ s' +:+ " ") → strings.TrimRight (s +:+ spaces m) " " = s.
Proof.
  induction s as [|c s IH]; intros Hs.
  - rewrite app_nil_l. apply TrimRight_spaces_only.
  - rewrite app_cons. cbn [strings.TrimRight]. destruct s as [|c' s].
    + rewrite app_nil_l, TrimRight_spaces_only, mem_byte_space.
      destruct (Ascii.eqb_spec c " ") as [->|]; [|done].
      by destruct (Hs "").
    + rewrite IH; [done|]. intros s' Hs'. apply (Hs (String c s')).
      by rewrite app_cons, <- Hs'.
Qed.

Lemma spaces_add (n m : nat) : spaces n +:+ spaces m = spaces (n + m).
Proof.
  induction n as [|n IH]; [done|].
  by rewrite Nat.add_succ_l, !spaces_S, app_cons, IH.
Qed.

(** [strings.Trim] with the cutset of one space removes the spaces at both
    ends, and nothing else. *)
Lemma Trim_spaces (n m : nat) (s : string) :
  no_space_at_ends s → strings.Trim (spaces n +:+ s +:+ spaces m) " " = s.
Proof.
  intros [Hstart Hend]. unfold strings.Trim.
  destruct s as [|c s].
  - by rewrite app_nil_l, spaces_add, TrimLeft_spaces_only.
  - assert (strings.TrimLeft (spaces n +:+ String c s +:+ spaces m) " "
            = String c s +:+ spaces m) as ->.
    { apply (TrimLeft_spaces n (String c s +:+ spaces m)).
      rewrite app_cons. cbn [strings.HasPrefix] in *.
      by rewrite HasPrefix_nil in *. }
    by apply TrimRight_spaces.
Qed.

(** A header text of one line with one colon. *)
Lemma buildRequest_key_value `{url.Parser} args lambdaURL requestMethod region
    requestBody σ req h σ' key value :
  headerList args = key +:+ ":" +:+ value →
  strings.Contains key ":" = false → strings.Contains value ":" = false →
  strings.Contains (headerList args) LF = false →
  buildRequest args lambdaURL requestMethod region requestBody σ = Ok (req, h, σ') →
  http.Header req
  = {[ http.CanonicalMIMEHeaderKey (strings.Trim key " ") := [strings.Trim value " "] ]}.
Proof.
  intros Hl Hk Hv Hlf Hb.
  eapply (buildRequest_one_line _ _ _ _ _ _ _ _ _ key value []) in Hb.
  - rewrite Hb. unfold http.Add. by rewrite lookup_empty.
  - by apply (Split_without_byte "010").
  - rewrite Hl. by apply Split_key_value.
Qed.

(** C8. Header lines of the form [Key: Value] are not always added with
    all surrounding whitespace removed: a tab before the key stays in the
    key that is added (only spaces are trimmed), and a value with a colon in
    it is cut at that colon. *)
Theorem header_line_not_normalized `{url.Parser} (args : flags)
    (lambdaURL requestMethod region requestBody : string) (σ σ' : heap)
    (req : http.Request) (h : string) :
  buildRequest args lambdaURL requestMethod region requestBody σ = Ok (req, h, σ') →
  (headerList args = TAB +:+ "Key: Value" →
   http.Header req = {[ TAB +:+ "Key" := ["Value"] ]} ∧ http.Header req !! "Key" = None) ∧
  (headerList args = "Referer: https://example.com/" →
   http.Header req = {[ "Referer" := ["https"] ]}).
Proof.
  intros Hb. split; intros Hl.
  - eapply (buildRequest_one_line _ _ _ _ _ _ _ _ _ (TAB +:+ "Key") " Value" []) in Hb;
      [|by rewrite Hl..].
    rewrite Hb. by vm_compute.
  - eapply (buildRequest_one_line _ _ _ _ _ _ _ _ _ "Referer" " https" ["//example.com/"]) in Hb;
      [|by rewrite Hl..].
    rewrite Hb. by vm_compute.
Qed.

Lemma header_line_not_normalized_witness :
  let args := mkFlags "" "" "GET" (TAB +:+ "Key: Value") in
  ∃ req h σ',
    @buildRequest url.go1_16 args "https://example.com" "GET" "eu-west-1" "" []
      = Ok (req, h, σ') ∧
    http.Header req = {[ TAB +:+ "Key" := ["Value"] ]} ∧ http.Header req !! "Key" = None.
Proof.
  intros args. eexists _, _, _. split; [vm_compute; reflexivity|].
  eapply (proj1 (header_line_not_normalized (H := url.go1_16) args
                   "https://example.com" "GET" "eu-west-1" "" [] _ _ _ eq_refl)).
  reflexivity.
Defined.

(** For an empty body [buildRequest] returns the payload hash
    [e3b0c442...b855], the SHA-256 of the empty string in lower-case
    hexadecimal digits, when it returns: when the method and the URL are
    accepted and every line of the header text has a colon. *)
Lemma buildRequest_empty_body `{url.Parser} (args : flags)
    (lambdaURL requestMethod region : string) (σ : heap) (u : url.URL) :
  requestMethod = "" ∨ http.validMethod requestMethod = true →
  url.Parse lambdaURL = Some u →
  (∀ line, line ∈ strings.Split (headerList args) LF → strings.Contains line ":" = true) →
  ∃ req σ',
    buildRequest args lambdaURL requestMethod region "" σ
    = Ok (req, "e3b0c44298fc1c149afbf4c8996fb92427ae41e4649b934ca495991b7852b855", σ').
Proof.
  intros Hm Hu Hlines. rewrite buildRequest_eq.
  destruct (new_request_Some requestMethod lambdaURL (String.length "") u Hm Hu)
    as (req0 & -> & _).
  destruct (range_headers_returns _ req0 Hlines) as [req ->]. simpl.
  eexists _, _. do 2 f_equal.
Qed.

Lemma buildRequest_empty_body_witness :
  ∃ req σ',
    @buildRequest url.go1_16 (mkFlags "" "" "GET" "Accept: *")
      "https://some-id.lambda-url.eu-west-1.on.aws/" "POST" "eu-west-1" "" []
    = Ok (req, "e3b0c44298fc1c149afbf4c8996fb92427ae41e4649b934ca495991b7852b855", σ').
Proof.
  apply (buildRequest_empty_body (H := url.go1_16) _ _ _ _ _
           (url.mkURL "https" "" "some-id.lambda-url.eu-west-1.on.aws" "/" false "" "")).
  - right. reflexivity.
  - reflexivity.
  - intros line Hl. vm_compute in Hl. apply list_elem_of_singleton in Hl as ->. reflexivity.
Defined.

(** The payload hash is that of the body, whatever the body. *)
Lemma buildRequest_payload_hash `{url.Parser} args lambdaURL requestMethod region
    requestBody σ req h σ' :
  buildRequest args lambdaURL requestMethod region requestBody σ = Ok (req, h, σ') →
  h = hex.EncodeToString (sha256.Sum256 requestBody) ∧
  http.ContentLength req = Z.of_nat (String.length requestBody) ∧
  σ' = σ ++ [strings.mkReader requestBody (String.length requestBody)].
Proof.
  rewrite buildRequest_eq. destruct (new_request _ _ _) as [req0|] eqn:Hn; [|done].
  apply new_request_fields in Hn as [_ Hlen].
  destruct (range_headers _ req0) as [req1| |] eqn:Hr; [|done..].
  apply range_headers_fields in Hr as (_ & _ & _ & Hcl & _).
  simpl. intros [= <- <- <-]. simpl. by rewrite Hcl, Hlen.
Qed.

(** C9. With the header flag at its default, the empty text, [buildRequest]
    returns no payload hash for an empty body: when the method and the URL
    are accepted, the header loop panics on the index [1] into the
    one-element split of the empty line, before anything is hashed.  The
    hashing itself is right: whatever the header text, a hash that
    [buildRequest] returns for the empty body is [e3b0c442...b855]. *)
Theorem buildRequest_empty_body_panics `{url.Parser}
    (lambdaURL requestMethod region : string) (σ : heap) (u : url.URL) :
  requestMethod = "" ∨ http.validMethod requestMethod = true →
  url.Parse lambdaURL = Some u →
  buildRequest flag_defaults lambdaURL requestMethod region "" σ
    = Panic (IndexOutOfRange 1 1) ∧
  ∀ args req h σ',
    buildRequest args lambdaURL requestMethod region "" σ = Ok (req, h, σ') →
    h = "e3b0c44298fc1c149afbf4c8996fb92427ae41e4649b934ca495991b7852b855".
Proof.
  intros Hm Hu. split.
  - rewrite (buildRequest_line_without_colon flag_defaults _ _ _ _ σ "");
      [|apply list_elem_of_here|done].
    by destruct (new_request_Some requestMethod lambdaURL (String.length "") u)
      as (req0 & -> & _).
  - intros args req h σ' (-> & _)%buildRequest_payload_hash. by vm_compute.
Qed.

Lemma buildRequest_empty_body_panics_witness :
  @buildRequest url.go1_16 flag_defaults
    "https://some-id.lambda-url.eu-west-1.on.aws/" "GET" "eu-west-1" "" []
  = Panic (IndexOutOfRange 1 1).
Proof.
  apply (buildRequest_empty_body_panics (H := url.go1_16) _ _ _ _
           (url.mkURL "https" "" "some-id.lambda-url.eu-west-1.on.aws" "/" false "" "")).
  - right. reflexivity.
  - reflexivity.
Defined.

(** The request that [buildRequest] returns shares its body reader with the
    hashing, which has read it to its end: sent as it is, a request with a
    body would not have the bytes its content length announces. *)
Lemma buildRequest_reader_drained `{url.Parser} args lambdaURL requestMethod region
    requestBody σ req h σ' :
  requestBody ≠ "" →
  buildRequest args lambdaURL requestMethod region requestBody σ = Ok (req, h, σ') →
  http.Body req = http.NopCloser (length σ) ∧
  strings.unread <$> σ' !! length σ = Some "" ∧
  http.outgoing_body req σ' = None.
Proof.
  intros Hne. rewrite buildRequest_eq.
  destruct (new_request _ _ _) as [req0|] eqn:Hn; [|done].
  apply new_request_fields in Hn as [_ Hlen].
  destruct (range_headers _ req0) as [req1| |] eqn:Hr; [|done..].
  apply range_headers_fields in Hr as (_ & _ & _ & Hcl & _).
  simpl. intros [= <- <- <-].
  assert (String.length requestBody ≠ 0) as Hl by by destruct requestBody.
  assert (strings.unread (strings.mkReader requestBody (String.length requestBody)) = "")
    as Hun.
  { unfold strings.unread. simpl.
    rewrite <- (app_nil_r requestBody) at 2. apply from_app. }
  unfold http.outgoing_body, body_of. simpl.
  destruct (Nat.eqb_spec (String.length requestBody) 0) as [|_]; [done|]. simpl.
  rewrite lookup_app_r, Nat.sub_diag by done. simpl. rewrite Hun, Hcl, Hlen. simpl.
  split; [done|]. split; [done|].
  destruct (Z.ltb_spec 0 (Z.of_nat (String.length requestBody))) as [_|]; [|lia].
  destruct (Z.of_nat (String.length requestBody)) eqn:Hz; [lia|done..].
Qed.

Lemma main_prepare_inv `{url.Parser} args environ σ credentials req bodyHash awsRegion σ' :
  main_prepare args environ σ = Ok (credentials, req, bodyHash, awsRegion, σ') →
  ∃ req1 σ1,
    buildRequest args (lambdaURL args) (requestMethod args) awsRegion (requestBody args) σ
      = Ok (req1, bodyHash, σ1) ∧
    req = http.with_Body req1 (http.NopCloser (length σ1)) ∧
    σ' = σ1 ++ [strings.mkReader (requestBody args) 0].
Proof.
  unfold main_prepare. destruct (String.eqb (lambdaURL args) ""); [done|].
  destruct (String.eqb (os_Getenv environ EnvAWSRegion) "").
  - destruct (guessAWSRegion (lambdaURL args)) as [[r [e|]]| |]; simpl; try done.
    destruct (String.eqb (os_Getenv environ EnvAWSAccessKeyID) ""); [done|].
    destruct (String.eqb (os_Getenv environ EnvAWSSecretAccessKey) ""); [done|].
    destruct (buildRequest _ _ _ _ _ _) as [[[req1 h1] σ1]| |]; simpl; try done.
    intros [= <- <- <- <- <-]. eauto.
  - simpl.
    destruct (String.eqb (os_Getenv environ EnvAWSAccessKeyID) ""); [done|].
    destruct (String.eqb (os_Getenv environ EnvAWSSecretAccessKey) ""); [done|].
    destruct (buildRequest _ _ _ _ _ _) as [[[req1 h1] σ1]| |]; simpl; try done.
    intros [= <- <- <- <- <-]. eauto.
Qed.

Lemma SignHTTP_body credentials req payloadHash service region t σ :
  http.outgoing_body (v4.SignHTTP credentials req payloadHash service region t) σ
  = http.outgoing_body req σ.
Proof. done. Qed.

(** C3. When [main] reaches [signer.SignHTTP], the payload hash it passes is
    the SHA-256, in hexadecimal digits, of the bytes of the body flag, and
    these are the bytes the request has to send as its body, before and
    after the signing: the reader that the hashing left at its end has been
    replaced by a new reader of the same string. *)
Theorem main_payload_hash_of_sent_body `{url.Parser} (args : flags)
    (environ : gmap string string) (σ σ' : heap) (credentials : aws.Credentials)
    (req : http.Request) (bodyHash awsRegion : string) :
  main_prepare args environ σ = Ok (credentials, req, bodyHash, awsRegion, σ') →
  http.outgoing_body req σ' = Some (requestBody args) ∧
  bodyHash = hex.EncodeToString (sha256.Sum256 (requestBody args)) ∧
  ∀ now, http.outgoing_body
           (v4.SignHTTP credentials req bodyHash "lambda" awsRegion now) σ'
         = Some (requestBody args).
Proof.
  intros (req1 & σ1 & Hb & -> & ->)%main_prepare_inv.
  apply buildRequest_payload_hash in Hb as (-> & Hcl & ->).
  assert (http.outgoing_body
            (http.with_Body req1 (http.NopCloser (length (σ ++ [strings.mkReader
               (requestBody args) (String.length (requestBody args))]))))
            ((σ ++ [strings.mkReader (requestBody args) (String.length (requestBody args))])
               ++ [strings.mkReader (requestBody args) 0])
          = Some (requestBody args)) as Hout.
  { unfold http.outgoing_body. simpl.
    rewrite lookup_app_r, Nat.sub_diag by done. simpl.
    unfold strings.unread, strings.from. simpl. rewrite drop_0, of_bytes_bytes, Hcl.
    by rewrite Z.eqb_refl, andb_false_r. }
  repeat split; [done|]. intros now. by rewrite SignHTTP_body.
Qed.

Lemma main_payload_hash_of_sent_body_witness :
  let args := mkFlags "https://some-id.lambda-url.eu-west-1.on.aws/" "{}" "POST" "Accept: *" in
  let environ : gmap string string :=
    {[ "AWS_ACCESS_KEY_ID" := "AKID"; "AWS_SECRET_ACCESS_KEY" := "SECRET" ]} in
  ∃ credentials req awsRegion σ',
    @main_prepare url.go1_16 args environ [] = Ok (credentials, req,
      "44136fa355b3678a1146ad16f7e8649e94fb4fc21fe77e8310c060f61caaff8a", awsRegion, σ') ∧
    http.outgoing_body req σ' = Some "{}".
Proof.
  intros args environ. eexists _, _, _, _. split; [vm_compute; reflexivity|].
  eapply (proj1 (main_payload_hash_of_sent_body (H := url.go1_16) args environ [] _ _ _ _ _ eq_refl)).
Defined.

(** * The signer *)

Lemma filter_lower_nil (h : gmap string (list string)) (name : string) :
  filter (λ kv, strings.ToLower kv.1 = name) (map_to_list h) = [] ↔
  ¬ ∃ key values, h !! key = Some values ∧ strings.ToLower key = name.
Proof.
  split.
  - intros Hf (key & values & Hk & Hn).
    apply (filter_nil_not_elem_of _ _ (key, values) Hf Hn).
    by apply elem_of_map_to_list.
  - intros Hno. destruct (filter _ _) as [|[k vs] kvs] eqn:Hf; [done|].
    assert ((k, vs) ∈ filter (λ kv, strings.ToLower kv.1 = name) (map_to_list h)) as Hin
      by (rewrite Hf; apply list_elem_of_here).
    apply list_elem_of_filter in Hin as [Hn Hin%elem_of_map_to_list].
    destruct Hno. eauto.
Qed.

Lemma header_value_is_Some req name :
  name ≠ "host" →
  is_Some (v4.header_value req name) ↔
  (name = "content-length" ∧ (0 < http.ContentLength req)%Z) ∨ carries req name.
Proof.
  intros Hhost. unfold v4.header_value, carries.
  destruct (String.eqb_spec name "host") as [|_]; [done|].
  pose proof (filter_lower_nil (http.Header req) name) as Hnil.
  destruct (String.eqb_spec name "content-length") as [->|Hcl]; simpl.
  - destruct (Z.ltb_spec 0 (http.ContentLength req)) as [Hpos|Hneg].
    { split; [auto|by eexists]. }
    destruct (filter _ _) as [|kv kvs].
    + split; [by intros [? ?]|]. intros [[_ ?]|Hc]; [lia|]. by apply Hnil in Hc.
    + split; [|by eexists]. intros _. right.
      destruct (decide (∃ key values, http.Header req !! key = Some values
                          ∧ strings.ToLower key = "content-length")) as [|Hno]; [done|].
      by apply Hnil in Hno.
  - destruct (filter _ _) as [|kv kvs].
    + split; [by intros [? ?]|]. intros [[? _]|Hc]; [done|]. by apply Hnil in Hc.
    + split; [|by eexists]. intros _. right.
      destruct (decide (∃ key values, http.Header req !! key = Some values
                          ∧ strings.ToLower key = name)) as [|Hno]; [done|].
      by apply Hnil in Hno.
Qed.

Lemma present_spec req name :
  name ≠ "host" →
  v4.present req name = true ↔
  (name = "content-length" ∧ (0 < http.ContentLength req)%Z) ∨ carries req name.
Proof.
  intros Hhost. unfold v4.present.
  rewrite bool_decide_eq_true. by apply header_value_is_Some.
Qed.

Lemma carries_Set req key value name :
  strings.ToLower (http.CanonicalMIMEHeaderKey key) ≠ name →
  carries (http.with_Header req (http.Set' (http.Header req) key value)) name
  ↔ carries req name.
Proof.
  intros Hne. unfold carries, http.Set'. cbn [http.Header http.with_Header]. split.
  - intros (k & vs & Hk & Hn). exists k, vs. split; [|done].
    rewrite lookup_insert_ne in Hk; [done|]. intros Heq. by rewrite Heq in Hne.
  - intros (k & vs & Hk & Hn). exists k, vs. split; [|done].
    rewrite lookup_insert_ne; [done|]. intros Heq. by rewrite Heq in Hne.
Qed.

Lemma with_Header_with_Header req h1 h2 :
  http.with_Header (http.with_Header req h1) h2 = http.with_Header req h2.
Proof. done. Qed.

(** The signed headers in terms of the request that is given to the signer. *)
Lemma signedHeaders_SignHTTP credentials req t name :
  let h := http.Set' (http.Header req) "X-Amz-Date" (v4.TS t) in
  let h' := if String.eqb (aws.SessionToken credentials) "" then h
            else http.Set' h "X-Amz-Security-Token" (aws.SessionToken credentials) in
  name ∈ v4.signedHeaders credentials (http.with_Header req h') ↔
    name = "host" ∨ name = "x-amz-date"
    ∨ (name = "content-length" ∧ ((0 < http.ContentLength req)%Z ∨ carries req "content-length"))
    ∨ (name = "content-type" ∧ carries req "content-type")
    ∨ (name = "x-amz-security-token" ∧ aws.SessionToken credentials ≠ "").
Proof.
  intros h h'. unfold v4.signedHeaders. rewrite merge_sort_Permutation.
  assert (∀ n, n = "content-length" ∨ n = "content-type" →
            v4.present (http.with_Header req h') n = true ↔
            (n = "content-length" ∧ (0 < http.ContentLength req)%Z) ∨ carries req n) as Hp.
  { intros n Hn. rewrite present_spec by (by destruct Hn as [-> | ->]).
    assert (carries (http.with_Header req h') n ↔ carries req n) as ->; [|done].
    unfold h', h. destruct (String.eqb _ ""). 
    - apply carries_Set. by destruct Hn as [-> | ->]; vm_compute.
    - rewrite <- (with_Header_with_Header req (http.Set' (http.Header req) "X-Amz-Date" (v4.TS t))).
      etrans; [apply (carries_Set (http.with_Header req _))|].
      + by destruct Hn as [-> | ->]; vm_compute.
      + apply carries_Set. by destruct Hn as [-> | ->]; vm_compute. }
  rewrite !elem_of_app, list_elem_of_filter, !elem_of_cons, !elem_of_nil.
  split.
  - intros [[->| [->|[]]] | [[Hpres [->|[->|[]]]] | Htok]]; auto.
    + apply Hp in Hpres; [|auto]. right. right. left. split; [done|].
      destruct Hpres as [[_ ?]|?]; auto.
    + apply Hp in Hpres; [|auto]. do 3 right. left. split; [done|].
      by destruct Hpres as [[? _]|?].
    + destruct (String.eqb_spec (aws.SessionToken credentials) "") as [|Hne];
        [by apply elem_of_nil in Htok|].
      apply list_elem_of_singleton in Htok as ->. auto 8.
  - intros [->|[->|[[-> Hc]|[[-> Hc]|[-> Htok]]]]]; auto.
    + right. left. split; [|auto]. apply Hp; [auto|]. destruct Hc; auto.
    + right. left. split; [|auto]. apply Hp; auto.
    + right. right. destruct (String.eqb_spec (aws.SessionToken credentials) "") as [|Hne];
        [done|]. apply list_elem_of_here.
Qed.

(** C7. The [Authorization] header that the signer sets lists signed headers
    that are sorted, that always hold [host] and [x-amz-date], that hold
    [content-length] and [content-type] exactly when the request carries
    them, and [x-amz-security-token] exactly when the credentials have a
    session token. *)
Theorem SignHTTP_signed_headers (credentials : aws.Credentials) (req : http.Request)
    (payloadHash service region : string) (t : Z) :
  ∃ names sig,
    http.Header (v4.SignHTTP credentials req payloadHash service region t) !! "Authorization"
    = Some ["AWS4-HMAC-SHA256 Credential=" +:+ aws.AccessKeyID credentials +:+ "/"
              +:+ v4.credentialScope t region service
              +:+ ", SignedHeaders=" +:+ strings.Join names ";"
              +:+ ", Signature=" +:+ sig] ∧
    StronglySorted String.le names ∧
    "host" ∈ names ∧ "x-amz-date" ∈ names ∧
    ("content-length" ∈ names ↔
       (0 < http.ContentLength req)%Z ∨ carries req "content-length") ∧
    ("content-type" ∈ names ↔ carries req "content-type") ∧
    ("x-amz-security-token" ∈ names ↔ aws.SessionToken credentials ≠ "").
Proof.
  unfold v4.SignHTTP. eexists _, _. split.
  { simpl. unfold http.Set' at 1.
    change (http.CanonicalMIMEHeaderKey "Authorization") with "Authorization".
    rewrite lookup_insert_eq. reflexivity. }
  split; [apply StronglySorted_merge_sort; apply _|].
  rewrite !signedHeaders_SignHTTP. repeat split; auto 8.
  - by intros [?|[?|[[_ ?]|[[? _]|[? _]]]]].
  - by intros [?|[?|[[? _]|[[_ ?]|[? _]]]]].
  - by intros [?|[?|[[? _]|[[? _]|[_ ?]]]]].
Qed.

(** * Signing depends on its inputs only *)

Lemma strip_with_Body req b : strip (http.with_Body req b) = strip req.
Proof. done. Qed.


Lemma buildRequest_view `{url.Parser} args lambdaURL requestMethod region requestBody σ1 σ2 :
  (λ '(req, h, _), (strip req, h))
    <$> buildRequest args lambdaURL requestMethod region requestBody σ1
  = (λ '(req, h, _), (strip req, h))
    <$> buildRequest args lambdaURL requestMethod region requestBody σ2.
Proof.
  rewrite !buildRequest_eq. destruct (new_request _ _ _) as [req0|]; [|done].
  simpl. by destruct (range_headers _ req0).
Qed.

Lemma main_prepare_view `{url.Parser} args environ σ1 σ2 :
  signing_view (main_prepare args environ σ1) = signing_view (main_prepare args environ σ2).
Proof.
  unfold main_prepare. destruct (String.eqb (lambdaURL args) ""); [done|].
  destruct (_ : outcome string) as [awsRegion| |]; simpl; [|done..].
  destruct (String.eqb (os_Getenv environ EnvAWSAccessKeyID) ""); [done|].
  destruct (String.eqb (os_Getenv environ EnvAWSSecretAccessKey) ""); [done|].
  pose proof (buildRequest_view args (lambdaURL args) (requestMethod args) awsRegion
                (requestBody args) σ1 σ2) as Hv.
  destruct (buildRequest _ _ _ _ _ σ1) as [[[req1 h1] σ1']| |];
    destruct (buildRequest _ _ _ _ _ σ2) as [[[req2 h2] σ2']| |];
    simpl in *; simplify_eq; try done.
  unfold signing_view. cbn [fmap outcome_fmap]. rewrite !strip_with_Body.
  destruct req1, req2. unfold strip, http.with_Body. simpl in *. by subst.
Qed.


(** ** The digests and the signature *)

Lemma length_of_bytes (l : list ascii) : String.length (of_bytes l) = length l.
Proof. by rewrite <- length_bytes, bytes_of_bytes. Qed.

Lemma length_round (s : list N) (kw : N * N) : length (sha256.round s kw) = length s.
Proof. unfold sha256.round. by repeat (destruct s as [|? s]; try done). Qed.

Lemma length_foldl_round (kws : list (N * N)) : ∀ s,
  length (foldl sha256.round s kws) = length s.
Proof.
  induction kws as [|kw kws IH]; intros s; [done|].
  cbn [foldl]. by rewrite IH, length_round.
Qed.

Lemma length_block (h m : list N) : length (sha256.block h m) = length h.
Proof.
  unfold sha256.block. rewrite length_zip_with, length_foldl_round. lia.
Qed.

Lemma length_foldl_block (ms : list (list N)) : ∀ h,
  length (foldl sha256.block h ms) = length h.
Proof.
  induction ms as [|m ms IH]; intros h; [done|].
  cbn [foldl]. by rewrite IH, length_block.
Qed.

Lemma length_big_endian (n : nat) : ∀ x, length (sha256.big_endian n x) = n.
Proof.
  induction n as [|n IH]; intros x; [done|].
  cbn [sha256.big_endian]. rewrite List.length_app, IH. simpl. lia.
Qed.

Lemma length_bind_const {A B} (f : A → list B) (k : nat) (l : list A) :
  (∀ x, length (f x) = k) → length (l ≫= f) = length l * k.
Proof.
  intros Hf. induction l as [|x l IH]; [done|].
  rewrite bind_cons, List.length_app, Hf, IH. simpl. lia.
Qed.

(** A digest has 32 bytes. *)
Lemma length_Sum256 (data : string) : String.length (sha256.Sum256 data) = 32.
Proof.
  unfold sha256.Sum256. rewrite length_of_bytes, length_fmap.
  rewrite (length_bind_const _ 4) by apply length_big_endian.
  by rewrite length_foldl_block.
Qed.

Lemma hex_digit_digit (n : N) : hex_digit (hex.digit n) = true.
Proof.
  unfold hex.digit. destruct (N.to_nat n) as [|k]; [done|].
  do 15 (destruct k as [|k]; [done|]). done.
Qed.

(** [hex.EncodeToString] gives two lower-case hexadecimal digits a byte. *)
Lemma EncodeToString_shape (src : string) :
  String.length (hex.EncodeToString src) = 2 * String.length src ∧
  forallb hex_digit (bytes (hex.EncodeToString src)) = true.
Proof.
  unfold hex.EncodeToString. rewrite length_of_bytes, bytes_of_bytes.
  rewrite (length_bind_const _ 2) by done. rewrite length_bytes. split; [lia|].
  induction (bytes src) as [|c l IH]; [done|].
  rewrite bind_cons. cbn [app forallb]. by rewrite !hex_digit_digit, IH.
Qed.



(** ** The inputs of the signing *)






(** * Further properties of the program *)

Example fmt_d_examples :
  fmt_d 200 = "200" ∧ fmt_d 0 = "0" ∧ fmt_d (-7) = "-7" ∧ fmt_d 1000 = "1000" ∧
  main_report (mkResponse "200 OK" 200) "{}"
  = "status code: 200 OK, response: {}::set-output name=status::200 OK" +:+ LF
    +:+ "::set-output name=code::200" +:+ LF
    +:+ "::set-output name=message::{}" +:+ LF.
Proof. vm_compute. repeat split. Qed.

(** * Further properties of [guessAWSRegion] *)

Lemma region_tokens_shape (t : string) :
  t ∈ region_tokens →
  forallb region_byte (bytes t) = true ∧ 5 ≤ String.length t ≤ 18 ∧
  match t with String c _ => is_lower c = true | "" => False end.
Proof.
  assert (forallb (λ t, forallb region_byte (bytes t)
                        && (5 <=? String.length t) && (String.length t <=? 18)
                        && match t with String c _ => is_lower c | "" => false end)
                  region_tokens = true) as Hall by (by vm_compute).
  rewrite forallb_forall in Hall. intros Ht%list_elem_of_In. apply Hall in Ht.
  apply andb_true_iff in Ht as [Ht Hlow]. apply andb_true_iff in Ht as [Ht Hmax].
  apply andb_true_iff in Ht as [Hbytes Hmin].
  apply Nat.leb_le in Hmin, Hmax. repeat split; [done..|].
  by destruct t.
Qed.

Lemma guessAWSRegion_Ok_inv `{url.Parser} lambdaURL region err :
  guessAWSRegion lambdaURL = Ok (region, err) →
  ∃ u, url.Parse lambdaURL = Some u ∧
    ((err = None ∧ first_region_token region (url.Hostname u))
     ∨ (region = "" ∧ err ≠ None ∧ ¬ has_region_token (url.Hostname u))).
Proof.
  intros Hg. destruct (url.Parse lambdaURL) as [u|] eqn:Hu.
  - exists u. split; [done|].
    destruct (guessAWSRegion_parsed lambdaURL u Hu) as [[Hno Hg']|(t & Hfirst & Hg')];
      rewrite Hg' in Hg; injection Hg as <- <-.
    + right. split; [reflexivity|]. split; [discriminate|exact Hno].
    + left. split; [reflexivity|exact Hfirst].
  - unfold guessAWSRegion in Hg. by rewrite Hu, MustCompile_awsRegionRegExp in Hg.
Qed.

(** X1. A region that [guessAWSRegion] returns without an error is one of
    the tokens of the pattern: 5 to 18 bytes, each a lower-case letter, a
    digit or a hyphen; it is never the empty string. *)
Theorem guessAWSRegion_region_shape `{url.Parser} (lambdaURL region : string) :
  guessAWSRegion lambdaURL = Ok (region, None) →
  region ∈ region_tokens ∧
  forallb region_byte (bytes region) = true ∧
  5 ≤ String.length region ≤ 18.
Proof.
  intros (u & _ & [[_ (pre & Ht & _)]|(_ & ? & _)])%guessAWSRegion_Ok_inv; [|done].
  split; [done|]. by apply region_tokens_shape in Ht as (? & ? & _).
Qed.

Lemma guessAWSRegion_region_shape_witness :
  "us-gov-west-1" ∈ region_tokens ∧
  forallb region_byte (bytes "us-gov-west-1") = true ∧
  5 ≤ String.length "us-gov-west-1" ≤ 18.
Proof.
  apply (guessAWSRegion_region_shape (H := url.go1_16)
           "https://x.lambda-url.us-gov-west-1.on.aws:8443/p?q#f").
  vm_compute. reflexivity.
Defined.

Lemma occurs_at_bytes pre t s :
  occurs_at pre t s → ∃ post, bytes s = bytes pre ++ bytes t ++ bytes post.
Proof. intros [post ->]. exists post. by rewrite !bytes_app. Qed.

(** X2. The pattern is matched as it is written, in lower case: for a URL
    that parses and whose hostname has no lower-case letter (a hostname
    written in capitals, an IP address) [guessAWSRegion] returns the
    error. *)
Theorem guessAWSRegion_no_lower_case `{url.Parser} (lambdaURL : string) (u : url.URL) :
  url.Parse lambdaURL = Some u →
  forallb (λ c, negb (is_lower c)) (bytes (url.Hostname u)) = true →
  guessAWSRegion lambdaURL
  = Ok ("", Some "lambda function URL is malformed, impossible to guess AWS region").
Proof.
  intros Hu Hup.
  destruct (guessAWSRegion_parsed lambdaURL u Hu) as [[_ Hg]|(t & Hfirst & _)]; [done|].
  destruct Hfirst as (pre & Ht & Hocc & _).
  apply occurs_at_bytes in Hocc as [post Hb]. rewrite Hb in Hup.
  rewrite !forallb_app in Hup.
  apply andb_true_iff in Hup as [_ Hup]. apply andb_true_iff in Hup as [Hup _].
  apply region_tokens_shape in Ht as (_ & _ & Hlow).
  destruct t as [|c t]; [done|]. unfold bytes in Hup. simpl in Hup.
  by rewrite Hlow in Hup.
Qed.

Lemma guessAWSRegion_no_lower_case_witness :
  @guessAWSRegion url.go1_16 "HTTPS://SOME-ID.LAMBDA-URL.EU-WEST-1.ON.AWS/"
  = Ok ("", Some "lambda function URL is malformed, impossible to guess AWS region").
Proof.
  apply (guessAWSRegion_no_lower_case (H := url.go1_16) _
           (url.mkURL "https" "" "SOME-ID.LAMBDA-URL.EU-WEST-1.ON.AWS" "/" false "" ""));
    reflexivity.
Defined.

(** * Further properties of [main] *)

(** X3. When [main] reaches the signer, the URL flag and both keys are not
    empty, the credentials are those of the environment (the session token
    as it is there, empty when unset), and the region is [AWS_REGION] when
    that is set, not looked at any further, and otherwise the region that
    [guessAWSRegion] returns without an error for the URL. *)
Theorem main_prepare_configuration `{url.Parser} (args : flags)
    (environ : gmap string string) (σ σ' : heap) (credentials : aws.Credentials)
    (req : http.Request) (bodyHash awsRegion : string) :
  main_prepare args environ σ = Ok (credentials, req, bodyHash, awsRegion, σ') →
  lambdaURL args ≠ "" ∧
  credentials = aws.mkCredentials (os_Getenv environ "AWS_ACCESS_KEY_ID")
                                  (os_Getenv environ "AWS_SECRET_ACCESS_KEY")
                                  (os_Getenv environ "AWS_SESSION_TOKEN") ∧
  aws.AccessKeyID credentials ≠ "" ∧ aws.SecretAccessKey credentials ≠ "" ∧
  (if String.eqb (os_Getenv environ "AWS_REGION") ""
   then guessAWSRegion (lambdaURL args) = Ok (awsRegion, None)
   else awsRegion = os_Getenv environ "AWS_REGION").
Proof.
  unfold main_prepare.
  destruct (String.eqb_spec (lambdaURL args) "") as [|Hurl]; [intros ?; discriminate|].
  change EnvAWSRegion with "AWS_REGION". change EnvAWSAccessKeyID with "AWS_ACCESS_KEY_ID".
  change EnvAWSSecretAccessKey with "AWS_SECRET_ACCESS_KEY".
  change EnvAWSSessionToken with "AWS_SESSION_TOKEN".
  destruct (String.eqb (os_Getenv environ "AWS_REGION") "") eqn:Hregion.
  - destruct (guessAWSRegion (lambdaURL args)) as [[r [e|]]| |] eqn:Hg;
      cbn [mbind outcome_bind]; [intros ?; discriminate| |intros ?; discriminate..].
    destruct (String.eqb_spec (os_Getenv environ "AWS_ACCESS_KEY_ID") "") as [|Hk];
      [intros ?; discriminate|].
    destruct (String.eqb_spec (os_Getenv environ "AWS_SECRET_ACCESS_KEY") "") as [|Hs];
      [intros ?; discriminate|].
    destruct (buildRequest _ _ _ _ _ _) as [[[req1 h1] σ1]| |];
      cbn [mbind outcome_bind]; [|intros ?; discriminate..].
    unfold strings_NewReader. intros [= <- <- <- <- <-].
    destruct (String.eqb_spec (os_Getenv environ "AWS_SESSION_TOKEN") "") as [->|];
      repeat split; assumption || reflexivity.
  - cbn [mbind outcome_bind].
    destruct (String.eqb_spec (os_Getenv environ "AWS_ACCESS_KEY_ID") "") as [|Hk];
      [intros ?; discriminate|].
    destruct (String.eqb_spec (os_Getenv environ "AWS_SECRET_ACCESS_KEY") "") as [|Hs];
      [intros ?; discriminate|].
    destruct (buildRequest _ _ _ _ _ _) as [[[req1 h1] σ1]| |];
      cbn [mbind outcome_bind]; [|intros ?; discriminate..].
    unfold strings_NewReader. intros [= <- <- <- <- <-].
    destruct (String.eqb_spec (os_Getenv environ "AWS_SESSION_TOKEN") "") as [->|];
      repeat split; assumption || reflexivity.
Qed.

Lemma main_prepare_configuration_witness :
  let args := mkFlags "https://example.com/" "" "GET" "Accept: *" in
  let environ : gmap string string :=
    {[ "AWS_ACCESS_KEY_ID" := "AKID"; "AWS_SECRET_ACCESS_KEY" := "SECRET";
       "AWS_REGION" := "mars-1" ]} in
  ∃ credentials req bodyHash awsRegion σ',
    @main_prepare url.go1_16 args environ []
      = Ok (credentials, req, bodyHash, awsRegion, σ') ∧
    credentials = aws.mkCredentials "AKID" "SECRET" "" ∧ awsRegion = "mars-1".
Proof.
  intros args environ. eexists _, _, _, _, _. split; [vm_compute; reflexivity|].
  pose proof (main_prepare_configuration (H := url.go1_16) args environ [] _ _ _ _ _ eq_refl)
    as (_ & Hc & _ & _ & Hr).
  split; [exact Hc|exact Hr].
Defined.

(** X4. A URL that [url.Parse] rejects ends [main] in two ways: with no
    [AWS_REGION] in the environment by the panic of [guessAWSRegion] on the
    nil URL, before the credentials are looked at; with [AWS_REGION] set by
    [os.Exit(1)], whether for a missing key or for the request that cannot
    be made. *)
Theorem main_prepare_rejected_url `{url.Parser} (args : flags)
    (environ : gmap string string) (σ : heap) :
  lambdaURL args ≠ "" →
  url.Parse (lambdaURL args) = None →
  main_prepare args environ σ
  = if String.eqb (os_Getenv environ "AWS_REGION") "" then Panic NilDereference else Exit 1.
Proof.
  intros Hne Hu. unfold main_prepare.
  destruct (String.eqb_spec (lambdaURL args) "") as [|_]; [done|].
  change EnvAWSRegion with "AWS_REGION".
  destruct (String.eqb (os_Getenv environ "AWS_REGION") "").
  - unfold guessAWSRegion. by rewrite Hu, MustCompile_awsRegionRegExp.
  - cbn [mbind outcome_bind].
    destruct (String.eqb _ ""); [done|]. destruct (String.eqb _ ""); [done|].
    rewrite buildRequest_eq. unfold new_request. rewrite Hu.
    by destruct (negb _).
Qed.

Lemma main_prepare_rejected_url_witness :
  let args := mkFlags ("https://example.com/" +:+ LF) "" "GET" "Accept: *" in
  @main_prepare url.go1_16 args ∅ [] = Panic NilDereference ∧
  @main_prepare url.go1_16 args {[ "AWS_REGION" := "eu-west-1" ]} [] = Exit 1.
Proof.
  intros args. split.
  - exact (main_prepare_rejected_url (H := url.go1_16) args ∅ []
             ltac:(discriminate) eq_refl).
  - exact (main_prepare_rejected_url (H := url.go1_16) args {[ "AWS_REGION" := "eu-west-1" ]} []
             ltac:(discriminate) eq_refl).
Defined.

(** * Further properties of the building of the request *)

Lemma length_unread (r : strings.Reader) :
  String.length (strings.unread r) = strings.Len r.
Proof.
  unfold strings.unread, strings.from, strings.Len.
  by rewrite length_of_bytes, length_drop, length_bytes.
Qed.

(** [buildRequestWithBodyReader] in closed form, for a reader of the heap. *)
Lemma buildRequestWithBodyReader_eq `{url.Parser} args lambdaURL requestMethod region
    (requestBody : loc) (σ : heap) (r : strings.Reader) :
  σ !! requestBody = Some r →
  buildRequestWithBodyReader args lambdaURL requestMethod region requestBody σ
  = match new_request requestMethod lambdaURL (strings.Len r) with
    | None => Exit 1
    | Some req0 =>
        req ← range_headers (strings.Split (headerList args) LF) req0;
        Ok (http.with_Body req (body_of (strings.Len r) requestBody),
            hex.EncodeToString (sha256.Sum256 (strings.unread r)),
            <[requestBody := strings.mkReader (strings.s r) (String.length (strings.s r))]> σ)
    end.
Proof.
  intros Hr. unfold buildRequestWithBodyReader, http.NewRequest, new_request, io_Copy.
  rewrite Hr. cbn [from_option].
  destruct (negb _); [done|]. destruct (url.Parse lambdaURL) as [u|]; [|done].
  cbn [mbind option_bind outcome_bind].
  change (http.mkRequest ?m ?u ∅ (if strings.Len r =? 0 then http.NoBody
                                   else http.NopCloser requestBody) ?cl ?h)
    with (http.with_Body (http.mkRequest m u ∅ http.nil_body cl h)
            (body_of (strings.Len r) requestBody)).
  rewrite range_headers_with_Body.
  by destruct (range_headers _ _).
Qed.

(** X5. [buildRequestWithBodyReader] hashes what the reader has left, not
    the whole string: for a reader some of which has been read, the payload
    hash is that of the unread bytes and the content length is their
    number; the body of the request is [NoBody] when there are none.  The
    reader is left at its end, and no other reader of the heap changes. *)
Theorem buildRequestWithBodyReader_unread `{url.Parser} (args : flags)
    (lambdaURL requestMethod region : string) (requestBody : loc) (σ σ' : heap)
    (r : strings.Reader) (req : http.Request) (payloadHash : string) :
  σ !! requestBody = Some r →
  buildRequestWithBodyReader args lambdaURL requestMethod region requestBody σ
    = Ok (req, payloadHash, σ') →
  payloadHash = hex.EncodeToString (sha256.Sum256 (strings.unread r)) ∧
  http.ContentLength req = Z.of_nat (String.length (strings.unread r)) ∧
  http.Body req = (if String.length (strings.unread r) =? 0
                   then http.NoBody else http.NopCloser requestBody) ∧
  length σ' = length σ ∧
  (strings.unread <$> σ' !! requestBody) = Some "" ∧
  ∀ l, l ≠ requestBody → σ' !! l = σ !! l.
Proof.
  intros Hr. rewrite (buildRequestWithBodyReader_eq _ _ _ _ _ _ r Hr).
  destruct (new_request _ _ _) as [req0|] eqn:Hn; [|done].
  apply new_request_fields in Hn as [_ Hlen].
  destruct (range_headers _ req0) as [req1| |] eqn:Hrh; [|done..].
  apply range_headers_fields in Hrh as (_ & _ & _ & Hcl & _).
  cbn [mbind outcome_bind]. intros [= <- <- <-].
  rewrite length_unread. cbn [http.ContentLength http.Body http.with_Body].
  rewrite Hcl, Hlen, length_insert. do 4 (split; [reflexivity|]). split.
  - rewrite list_lookup_insert_eq by (by eapply lookup_lt_Some). simpl.
    unfold strings.unread. simpl.
    rewrite <- (app_nil_r (strings.s r)) at 2. by rewrite from_app.
  - intros l Hl. by apply list_lookup_insert_ne.
Qed.

Lemma buildRequestWithBodyReader_unread_witness :
  let σ := [strings.mkReader "skip{}" 4] in
  ∃ req σ',
    @buildRequestWithBodyReader url.go1_16 (mkFlags "" "" "" "Accept: *")
      "https://example.com/" "POST" "eu-west-1" 0 σ
    = Ok (req, "44136fa355b3678a1146ad16f7e8649e94fb4fc21fe77e8310c060f61caaff8a", σ') ∧
    http.ContentLength req = 2%Z ∧ http.Body req = http.NopCloser 0.
Proof.
  intros σ. eexists _, _. split; [vm_compute; reflexivity|].
  pose proof (buildRequestWithBodyReader_unread (H := url.go1_16)
                (mkFlags "" "" "" "Accept: *") "https://example.com/" "POST" "eu-west-1"
                0 σ _ (strings.mkReader "skip{}" 4) _ _ eq_refl eq_refl)
    as (_ & Hcl & Hb & _).
  split; [exact Hcl|exact Hb].
Defined.

Lemma range_headers_header_loop headers : ∀ req,
  range_headers headers req
  = http.with_Header req <$> header_loop headers (http.Header req).
Proof.
  induction headers as [|header headers IH]; intros req.
  - by destruct req.
  - cbn [range_headers header_loop].
    destruct (at_index (strings.Split header ":") 0) as [key| |]; [|done..].
    destruct (at_index (strings.Split header ":") 1) as [value| |]; [|done..].
    cbn [fmap outcome_fmap mbind outcome_bind]. rewrite IH.
    cbn [http.Header http.with_Header]. by destruct (header_loop _ _).
Qed.

(** X6. A reader serves one request: a second [buildRequestWithBodyReader]
    on the reader that a first one has read returns the same headers with
    the hash of the empty string, a content length of 0 and [NoBody],
    whatever the reader held, and leaves the heap as it is. *)
Theorem buildRequestWithBodyReader_twice `{url.Parser} (args : flags)
    (lambdaURL requestMethod region : string) (requestBody : loc) (σ σ1 : heap)
    (r : strings.Reader) (req1 : http.Request) (h1 : string) :
  σ !! requestBody = Some r →
  buildRequestWithBodyReader args lambdaURL requestMethod region requestBody σ
    = Ok (req1, h1, σ1) →
  ∃ req2,
    buildRequestWithBodyReader args lambdaURL requestMethod region requestBody σ1
      = Ok (req2, "e3b0c44298fc1c149afbf4c8996fb92427ae41e4649b934ca495991b7852b855", σ1) ∧
    http.Header req2 = http.Header req1 ∧
    http.ContentLength req2 = 0%Z ∧ http.Body req2 = http.NoBody.
Proof.
  intros Hr. rewrite (buildRequestWithBodyReader_eq _ _ _ _ _ _ r Hr).
  destruct (new_request _ _ (strings.Len r)) as [req0|] eqn:Hn; [|done].
  rewrite range_headers_header_loop.
  destruct (header_loop _ (http.Header req0)) as [h| |] eqn:Hloop; [|done..].
  cbn [fmap outcome_fmap mbind outcome_bind]. intros [= <- <- <-].
  pose (r' := strings.mkReader (strings.s r) (String.length (strings.s r))).
  assert (<[requestBody:=r']> σ !! requestBody = Some r') as Hr'.
  { apply list_lookup_insert_eq. by eapply lookup_lt_Some. }
  rewrite (buildRequestWithBodyReader_eq _ _ _ _ _ _ r' Hr').
  assert (strings.Len r' = 0) as -> by (unfold strings.Len; simpl; lia).
  assert (strings.unread r' = "") as ->.
  { unfold strings.unread. simpl.
    rewrite <- (app_nil_r (strings.s r)) at 2. by rewrite from_app. }
  unfold new_request in *. destruct (negb _); [done|].
  destruct (url.Parse lambdaURL) as [u|]; [|done].
  cbn [mbind option_bind] in *. simplify_eq.
  rewrite range_headers_header_loop. cbn [http.Header] in *. rewrite Hloop.
  cbn [fmap outcome_fmap mbind outcome_bind].
  assert (hex.EncodeToString (sha256.Sum256 "")
          = "e3b0c44298fc1c149afbf4c8996fb92427ae41e4649b934ca495991b7852b855") as ->
    by (vm_compute; reflexivity).
  unfold r'. cbn [strings.s]. rewrite list_insert_insert_eq.
  eexists. split; [reflexivity|]. repeat split.
Qed.

Lemma buildRequestWithBodyReader_twice_witness :
  let args := mkFlags "" "" "" "Accept: *" in
  let first := @buildRequestWithBodyReader url.go1_16 args "https://example.com/" "POST"
                 "eu-west-1" 0 [strings.mkReader "{}" 0] in
  ∃ req1 h1 σ1 req2,
    first = Ok (req1, h1, σ1) ∧
    @buildRequestWithBodyReader url.go1_16 args "https://example.com/" "POST" "eu-west-1" 0 σ1
      = Ok (req2, "e3b0c44298fc1c149afbf4c8996fb92427ae41e4649b934ca495991b7852b855", σ1).
Proof.
  intros args first. eexists _, _, _.
  destruct (buildRequestWithBodyReader_twice (H := url.go1_16) args "https://example.com/"
              "POST" "eu-west-1" 0 [strings.mkReader "{}" 0] _ (strings.mkReader "{}" 0)
              _ _ eq_refl eq_refl) as (req2 & H2 & _).
  exists req2. split; [reflexivity|exact H2].
Defined.

Lemma forallb_false_elem {A} (f : A → bool) (l : list A) :
  forallb f l = false → ∃ x, x ∈ l ∧ f x = false.
Proof.
  induction l as [|a l IH]; [done|]. simpl. destruct (f a) eqn:Ha.
  - intros (x & Hx & Hf)%IH. exists x. split; [by apply list_elem_of_further|done].
  - intros _. exists a. split; [apply list_elem_of_here|done].
Qed.

(** X7. What [buildRequest] does, case by case.  A method that is not a
    token or a URL that does not parse is [os.Exit(1)], whatever the header
    text.  Otherwise a header line without a colon is the panic.  Otherwise
    it returns: the method is the given one, [GET] for the empty string; the
    host is that of the URL, without an empty port; the content length is
    the length of the body, and the body of the request is [NoBody] for the
    empty string; the hash is that of the body; the heap has one reader
    more, the one given to the request, at its end. *)
Theorem buildRequest_outcomes `{url.Parser} (args : flags)
    (lambdaURL requestMethod region requestBody : string) (σ : heap) :
  let build := buildRequest args lambdaURL requestMethod region requestBody σ in
  match url.Parse lambdaURL with
  | Some u =>
      if String.eqb requestMethod "" || http.validMethod requestMethod then
        if forallb (λ line, strings.Contains line ":")
                   (strings.Split (headerList args) LF)
        then ∃ req,
          build = Ok (req, hex.EncodeToString (sha256.Sum256 requestBody),
                      σ ++ [strings.mkReader requestBody (String.length requestBody)]) ∧
          http.Method req = (if String.eqb requestMethod "" then "GET" else requestMethod) ∧
          http.Host req = http.removeEmptyPort (url.Host u) ∧
          url.Host (http.URL req) = http.Host req ∧
          http.ContentLength req = Z.of_nat (String.length requestBody) ∧
          http.Body req = (if String.eqb requestBody "" then http.NoBody
                           else http.NopCloser (length σ))
        else build = Panic (IndexOutOfRange 1 1)
      else build = Exit 1
  | None => build = Exit 1
  end.
Proof.
  intros build. unfold build. rewrite buildRequest_eq. unfold new_request.
  destruct (url.Parse lambdaURL) as [u|]; [|by destruct (negb _)].
  destruct (String.eqb_spec requestMethod "") as [->|Hm]; cbn [orb].
  - change (negb (http.validMethod "GET")) with false. cbn [mbind option_bind].
    destruct (forallb _ _) eqn:Hall.
    + rewrite forallb_forall in Hall.
      match goal with |- context [range_headers ?hs ?r] =>
        destruct (range_headers_returns hs r) as [req Hr] end.
      { intros line Hl%list_elem_of_In. by apply Hall. }
      rewrite Hr. apply range_headers_fields in Hr as (Hme & Hu & Hb & Hcl & Hh).
      eexists. split; [done|]. cbn [http.Method http.Host http.URL http.ContentLength
        http.Body http.with_Body]. rewrite Hme, Hu, Hh, Hcl. repeat split.
      unfold body_of. by destruct requestBody.
    + apply forallb_false_elem in Hall as (line & Hl & Hc).
      by rewrite (range_headers_panics _ _ line Hl Hc).
  - destruct (http.validMethod requestMethod); [|done]. cbn [negb mbind option_bind].
    destruct (forallb _ _) eqn:Hall.
    + rewrite forallb_forall in Hall.
      match goal with |- context [range_headers ?hs ?r] =>
        destruct (range_headers_returns hs r) as [req Hr] end.
      { intros line Hl%list_elem_of_In. by apply Hall. }
      rewrite Hr. apply range_headers_fields in Hr as (Hme & Hu & Hb & Hcl & Hh).
      eexists. split; [done|]. cbn [http.Method http.Host http.URL http.ContentLength
        http.Body http.with_Body]. rewrite Hme, Hu, Hh, Hcl. repeat split.
      unfold body_of. by destruct requestBody.
    + apply forallb_false_elem in Hall as (line & Hl & Hc).
      by rewrite (range_headers_panics _ _ line Hl Hc).
Qed.

(** For a separator of one byte, splitting goes through concatenation at
    the separator. *)
Lemma Split_app_byte (c : ascii) (a b : string) :
  strings.Split (a +:+ String c b) (String c "")
  = strings.Split a (String c "") ++ strings.Split b (String c "").
Proof.
  unfold strings.Split. induction a as [|a0 a IH].
  - rewrite app_nil_l. cbn [strings.pieces strings.HasPrefix String.length].
    rewrite Ascii.eqb_refl, HasPrefix_nil. simpl.
    by destruct (strings.pieces (String c "") b 0).
  - rewrite app_cons. cbn [strings.pieces strings.HasPrefix String.length].
    rewrite !HasPrefix_nil, !andb_true_r. simpl.
    destruct (strings.pieces (String c "") (a +:+ String c b) 0) as [p ps].
    destruct (strings.pieces (String c "") a 0) as [p' ps'].
    destruct (strings.pieces (String c "") b 0) as [q qs].
    simpl in IH. simplify_eq. by destruct (Ascii.eqb c a0).
Qed.

(** X8. An empty line in the header text stops the build: for a method and
    a URL that are accepted, a header text that is empty, starts or ends
    with a newline, or has two newlines in a row makes [buildRequest]
    panic. *)
Theorem buildRequest_empty_line `{url.Parser} (args : flags)
    (lambdaURL requestMethod region requestBody : string) (σ : heap) (u : url.URL)
    (before after : string) :
  requestMethod = "" ∨ http.validMethod requestMethod = true →
  url.Parse lambdaURL = Some u →
  headerList args = before +:+ after →
  before = "" ∨ (∃ a, before = a +:+ LF) →
  after = "" ∨ (∃ b, after = LF +:+ b) →
  buildRequest args lambdaURL requestMethod region requestBody σ
  = Panic (IndexOutOfRange 1 1).
Proof.
  intros Hm Hu Hl Hbefore Hafter.
  assert ("" ∈ strings.Split (headerList args) LF) as Hin.
  { rewrite Hl. unfold LF in *. destruct Hbefore as [->|[a ->]], Hafter as [->|[b ->]].
    - apply list_elem_of_here.
    - change ("" +:+ String "010" "" +:+ b) with ("" +:+ String "010" b).
      rewrite (Split_app_byte "010" "" b). apply list_elem_of_here.
    - rewrite app_nil_r.
      rewrite (Split_app_byte "010" a ""). apply elem_of_app. right. apply list_elem_of_here.
    - rewrite app_assoc.
      change (a +:+ String "010" "" +:+ String "010" "" +:+ b)
        with (a +:+ String "010" ("" +:+ String "010" b)).
      rewrite (Split_app_byte "010" a), (Split_app_byte "010" "" b).
      apply elem_of_app. right. apply list_elem_of_here. }
  rewrite (buildRequest_line_without_colon _ _ _ _ _ _ "" Hin eq_refl).
  by destruct (new_request_Some requestMethod lambdaURL (String.length requestBody) u)
    as (req0 & -> & _).
Qed.

Lemma buildRequest_empty_line_witness :
  @buildRequest url.go1_16 (mkFlags "" "" "GET" ("Accept: *" +:+ LF))
    "https://example.com" "GET" "eu-west-1" "" []
  = Panic (IndexOutOfRange 1 1).
Proof.
  apply (buildRequest_empty_line (H := url.go1_16) _ _ _ _ _ _
           (url.mkURL "https" "" "example.com" "" false "" "") ("Accept: *" +:+ LF) "").
  - right. reflexivity.
  - reflexivity.
  - reflexivity.
  - right. by exists "Accept: *".
  - by left.
Defined.

(** * The headers that the loop adds *)

Lemma header_loop_cons line lines h h' :
  header_loop (line :: lines) h = Ok h' →
  ∃ key value rest,
    strings.Split line ":" = key :: value :: rest ∧
    header_loop lines (http.Add h (strings.Trim key " ") (strings.Trim value " ")) = Ok h'.
Proof.
  cbn [header_loop]. destruct (strings.Split line ":") as [|key [|value rest]]; [done..|].
  cbn [at_index lookup list_lookup fmap outcome_fmap mbind outcome_bind]. eauto.
Qed.

Lemma lookup_Add (h : gmap string (list string)) key value k :
  default [] (http.Add h key value !! k)
  = default [] (h !! k)
    ++ (if decide (http.CanonicalMIMEHeaderKey key = k) then [value] else []).
Proof.
  unfold http.Add. destruct (decide (http.CanonicalMIMEHeaderKey key = k)) as [<-|Hne].
  - by rewrite lookup_insert_eq.
  - rewrite lookup_insert_ne by done. by rewrite List.app_nil_r.
Qed.

Lemma header_loop_values lines : ∀ h h' k,
  header_loop lines h = Ok h' →
  default [] (h' !! k) = default [] (h !! k) ++ values_of k lines.
Proof.
  induction lines as [|line lines IH]; intros h h' k Hloop.
  - simpl in Hloop. simplify_eq. by rewrite List.app_nil_r.
  - apply header_loop_cons in Hloop as (key & value & rest & Hs & Hloop).
    rewrite (IH _ _ k Hloop), lookup_Add, <- List.app_assoc. f_equal.
    assert (header_of_line line
            = Some (http.CanonicalMIMEHeaderKey (strings.Trim key " "),
                    strings.Trim value " ")) as Hline
      by (unfold header_of_line; by rewrite Hs).
    unfold values_of. cbn [omap list_omap]. fold (@omap list _). rewrite Hline.
    by destruct (decide _).
Qed.

Lemma header_loop_nonempty lines : ∀ h h',
  (∀ k, h !! k ≠ Some []) →
  header_loop lines h = Ok h' → ∀ k, h' !! k ≠ Some [].
Proof.
  induction lines as [|line lines IH]; intros h h' Hh Hloop.
  - simpl in Hloop. by simplify_eq.
  - apply header_loop_cons in Hloop as (key & value & rest & Hs & Hloop).
    eapply IH; [|done]. intros k. unfold http.Add.
    destruct (decide (http.CanonicalMIMEHeaderKey (strings.Trim key " ") = k)) as [<-|Hne].
    + rewrite lookup_insert_eq. intros [= Heq]. by destruct (default [] _).
    + by rewrite lookup_insert_ne.
Qed.

Lemma buildRequest_header_loop `{url.Parser} args lambdaURL requestMethod region
    requestBody σ req h σ' :
  buildRequest args lambdaURL requestMethod region requestBody σ = Ok (req, h, σ') →
  header_loop (strings.Split (headerList args) LF) ∅ = Ok (http.Header req).
Proof.
  rewrite buildRequest_eq. destruct (new_request _ _ _) as [req0|] eqn:Hn; [|done].
  apply new_request_fields in Hn as [Hh _].
  rewrite range_headers_header_loop, Hh.
  destruct (header_loop _ ∅) as [hs| |]; [|done..].
  cbn [fmap outcome_fmap mbind outcome_bind]. by intros [= <- _ _].
Qed.

(** X9. The headers of the request that [buildRequest] returns are those of
    the lines of the header text, and no others: under each key, as
    [Header.Add] stores it, are the values of the lines with that key, in
    the order of the lines (a key that comes twice keeps both values), and a
    key that no line has is absent. *)
Theorem buildRequest_headers `{url.Parser} (args : flags)
    (lambdaURL requestMethod region requestBody : string) (σ σ' : heap)
    (req : http.Request) (h : string) (key : string) :
  buildRequest args lambdaURL requestMethod region requestBody σ = Ok (req, h, σ') →
  http.Header req !! key
  = match values_of key (strings.Split (headerList args) LF) with
    | [] => None
    | values => Some values
    end.
Proof.
  intros Hloop%buildRequest_header_loop.
  pose proof (header_loop_values _ _ _ key Hloop) as Hv.
  pose proof (header_loop_nonempty _ ∅ _ (λ k, ltac:(by rewrite lookup_empty)) Hloop key)
    as Hne.
  rewrite lookup_empty in Hv. cbn [default from_option app] in Hv. rewrite <- Hv.
  by destruct (http.Header req !! key) as [[|v vs]|].
Qed.

Lemma buildRequest_headers_witness :
  let args := mkFlags "" "" "GET"
                ("accept: a" +:+ LF +:+ "X-Id: 1" +:+ LF +:+ "ACCEPT : b") in
  ∃ req h σ',
    @buildRequest url.go1_16 args "https://example.com" "GET" "eu-west-1" "" []
      = Ok (req, h, σ') ∧
    http.Header req !! "Accept" = Some ["a"; "b"] ∧
    http.Header req !! "Host" = None.
Proof.
  intros args. eexists _, _, _. split; [vm_compute; reflexivity|]. split.
  - apply (buildRequest_headers (H := url.go1_16) args "https://example.com" "GET"
             "eu-west-1" "" [] _ _ _ "Accept" eq_refl).
  - apply (buildRequest_headers (H := url.go1_16) args "https://example.com" "GET"
             "eu-west-1" "" [] _ _ _ "Host" eq_refl).
Defined.

Lemma Contains_byte_cons (c a : ascii) (s : string) :
  strings.Contains (String a s) (String c "")
  = Ascii.eqb c a || strings.Contains s (String c "").
Proof. cbn [strings.Contains strings.HasPrefix]. by rewrite HasPrefix_nil, andb_true_r. Qed.

Lemma pieces_no_byte (c : ascii) (s : string) : ∀ p ps,
  strings.pieces (String c "") s 0 = (p, ps) →
  Forall (λ q, strings.Contains q (String c "") = false) (p :: ps).
Proof.
  induction s as [|a s IH]; intros p ps Hp.
  - simpl in Hp. simplify_eq. by repeat constructor.
  - cbn [strings.pieces strings.HasPrefix String.length] in Hp.
    rewrite HasPrefix_nil, andb_true_r in Hp. simpl in Hp.
    destruct (strings.pieces (String c "") s 0) as [p' ps'].
    specialize (IH _ _ eq_refl). apply Forall_cons in IH as [Hp' Hps'].
    destruct (Ascii.eqb c a) eqn:Hc; simplify_eq.
    + by repeat constructor.
    + constructor; [|done]. by rewrite Contains_byte_cons, Hc.
Qed.

Lemma Split_no_byte (c : ascii) (s p : string) :
  p ∈ strings.Split s (String c "") → strings.Contains p (String c "") = false.
Proof.
  unfold strings.Split. destruct (strings.pieces (String c "") s 0) as [q qs] eqn:Hq.
  apply pieces_no_byte in Hq. rewrite Forall_forall in Hq. apply Hq.
Qed.

Lemma pieces_substring (c : ascii) (s : string) : ∀ p ps,
  strings.pieces (String c "") s 0 = (p, ps) →
  (∃ b, s = p +:+ b) ∧ Forall (λ q, ∃ a b, s = a +:+ q +:+ b) ps.
Proof.
  induction s as [|a0 s IH]; intros p ps Hp.
  - simpl in Hp. simplify_eq. split; [by exists ""|constructor].
  - cbn [strings.pieces strings.HasPrefix String.length] in Hp.
    rewrite HasPrefix_nil, andb_true_r in Hp. simpl in Hp.
    destruct (strings.pieces (String c "") s 0) as [p' ps'].
    destruct (IH _ _ eq_refl) as [[b Hs] Hps].
    assert (Forall (λ q, ∃ a b, String a0 s = a +:+ q +:+ b) ps') as Hps'.
    { eapply Forall_impl; [exact Hps|]. intros q (a & b' & ->).
      by exists (String a0 a), b'. }
    destruct (Ascii.eqb c a0); simplify_eq.
    + split; [by exists (String a0 (p' +:+ b))|].
      constructor; [|done]. by exists (String a0 ""), b.
    + split; [|done]. by exists b.
Qed.

Lemma Split_substring (c : ascii) (s p : string) :
  p ∈ strings.Split s (String c "") → ∃ a b, s = a +:+ p +:+ b.
Proof.
  unfold strings.Split. destruct (strings.pieces (String c "") s 0) as [q qs] eqn:Hq.
  apply pieces_substring in Hq as [[b Hs] Hqs]. rewrite Forall_forall in Hqs.
  intros [->|Hp]%elem_of_cons; [by exists "", b|]. by apply Hqs.
Qed.

Lemma Contains_substring (a p b x : string) :
  strings.Contains (a +:+ p +:+ b) x = false → strings.Contains p x = false.
Proof.
  intros Hs. destruct (strings.Contains p x) eqn:Hp; [|done].
  apply Contains_spec in Hp as (pre & post & ->).
  assert (strings.Contains (a +:+ (pre +:+ x +:+ post) +:+ b) x = true) as Ht; [|congruence].
  apply Contains_spec. exists (a +:+ pre), (post +:+ b). by rewrite !app_assoc.
Qed.

Lemma TrimLeft_suffix (s cutset : string) : ∃ a, s = a +:+ strings.TrimLeft s cutset.
Proof.
  induction s as [|c s [a IH]]; [by exists ""|]. cbn [strings.TrimLeft].
  destruct (mem_byte c cutset); [|by exists ""].
  exists (String c a). by rewrite app_cons, <- IH.
Qed.

Lemma TrimRight_prefix (s cutset : string) : ∃ b, s = strings.TrimRight s cutset +:+ b.
Proof.
  induction s as [|c s [b IH]]; [by exists ""|]. cbn [strings.TrimRight].
  destruct (strings.TrimRight s cutset) as [|d t].
  - destruct (mem_byte c cutset); [by exists (String c s)|].
    exists b. by rewrite app_cons, <- IH.
  - exists b. by rewrite app_cons, <- IH.
Qed.

Lemma Trim_substring (s cutset : string) : ∃ a b, s = a +:+ strings.Trim s cutset +:+ b.
Proof.
  unfold strings.Trim. destruct (TrimLeft_suffix s cutset) as [a Ha].
  destruct (TrimRight_prefix (strings.TrimLeft s cutset) cutset) as [b Hb].
  exists a, b. by rewrite <- Hb.
Qed.

Lemma TrimLeft_no_space (s : string) :
  strings.HasPrefix (strings.TrimLeft s " ") " " = false.
Proof.
  induction s as [|c s IH]; [done|]. cbn [strings.TrimLeft].
  rewrite mem_byte_space. destruct (Ascii.eqb c " ") eqn:Hc; [done|].
  cbn [strings.HasPrefix]. by rewrite Ascii.eqb_sym, Hc.
Qed.

Lemma TrimRight_head (s : string) :
  strings.HasPrefix s " " = false →
  strings.HasPrefix (strings.TrimRight s " ") " " = false.
Proof.
  destruct s as [|c s]; [done|]. cbn [strings.TrimRight strings.HasPrefix].
  rewrite HasPrefix_nil, andb_true_r. intros Hc.
  destruct (strings.TrimRight s " "); [destruct (mem_byte c " ")|];
    cbn [strings.HasPrefix]; by rewrite ?Hc.
Qed.

Lemma TrimRight_no_space (s s' : string) : strings.TrimRight s " " ≠ s' +:+ " ".
Proof.
  revert s'. induction s as [|c s IH]; intros s'; cbn [strings.TrimRight].
  - by destruct s'.
  - destruct (strings.TrimRight s " ") as [|d t] eqn:Ht.
    + rewrite mem_byte_space. destruct (Ascii.eqb_spec c " ") as [->|Hc].
      * by destruct s'.
      * destruct s' as [|c' s']; [intros [= ?]; done|].
        rewrite app_cons. intros [= _ Hs']. by destruct s'.
    + destruct s' as [|c' s']; [done|]. rewrite app_cons. intros [= _ Hs'].
      by apply (IH s').
Qed.

Lemma Trim_no_space (s : string) : no_space_at_ends (strings.Trim s " ").
Proof.
  split; [apply TrimRight_head, TrimLeft_no_space|]. intros s'. apply TrimRight_no_space.
Qed.

(** X10. No value among the headers of the request that [buildRequest]
    returns has a colon or a newline in it, nor a space at its start or at
    its end: the value of a line stops at the second colon of the line. *)
Theorem buildRequest_header_values `{url.Parser} (args : flags)
    (lambdaURL requestMethod region requestBody : string) (σ σ' : heap)
    (req : http.Request) (h : string) (key value : string) (values : list string) :
  buildRequest args lambdaURL requestMethod region requestBody σ = Ok (req, h, σ') →
  http.Header req !! key = Some values →
  value ∈ values →
  strings.Contains value ":" = false ∧ strings.Contains value LF = false ∧
  no_space_at_ends value.
Proof.
  intros Hloop%buildRequest_header_loop Hk Hv.
  pose proof (header_loop_values _ _ _ key Hloop) as Hvs.
  rewrite Hk, lookup_empty in Hvs. simpl in Hvs. subst values.
  apply list_elem_of_omap in Hv as (line & Hline & Hv).
  unfold header_of_line in Hv.
  destruct (strings.Split line ":") as [|k [|v rest]] eqn:Hs; [done..|].
  destruct (decide _); [|done]. simplify_eq.
  assert (v ∈ strings.Split line ":") as Hin
    by (rewrite Hs; apply list_elem_of_further, list_elem_of_here).
  destruct (Trim_substring v " ") as (a & b & Hv).
  destruct (Split_substring ":" line v Hin) as (a' & b' & Hl).
  apply (Split_no_byte "010") in Hline. apply (Split_no_byte ":") in Hin.
  rewrite Hl in Hline. apply Contains_substring in Hline.
  rewrite Hv in Hin, Hline. apply Contains_substring in Hin, Hline.
  split; [done|]. split; [done|]. apply Trim_no_space.
Qed.

Lemma buildRequest_header_values_witness :
  let args := mkFlags "" "" "GET" "Referer:  https://example.com/ " in
  ∃ req h σ',
    @buildRequest url.go1_16 args "https://example.com" "GET" "eu-west-1" "" []
      = Ok (req, h, σ') ∧
    http.Header req !! "Referer" = Some ["https"] ∧
    strings.Contains "https" ":" = false.
Proof.
  intros args. eexists _, _, _. split; [vm_compute; reflexivity|]. split; [reflexivity|].
  eapply (proj1 (buildRequest_header_values (H := url.go1_16) args "https://example.com"
                   "GET" "eu-west-1" "" [] _ _ _ "Referer" "https" ["https"] eq_refl eq_refl _)).
  Unshelve. apply list_elem_of_here.
Defined.

(** ** The payload hash *)

(** X11. The payload hash that [buildRequestWithBodyReader] returns is
    always 64 bytes long, each of them a lower-case hexadecimal digit,
    whatever the reader holds and wherever its position is. *)
Theorem buildRequestWithBodyReader_hash_shape `{url.Parser} (args : flags)
    (lambdaURL requestMethod region : string) (requestBody : loc) (σ σ' : heap)
    (req : http.Request) (payloadHash : string) :
  buildRequestWithBodyReader args lambdaURL requestMethod region requestBody σ
    = Ok (req, payloadHash, σ') →
  String.length payloadHash = 64 ∧ forallb hex_digit (bytes payloadHash) = true.
Proof.
  unfold buildRequestWithBodyReader. intros Hb.
  destruct (http.NewRequest _ _ _ _) as [req0|]; [|done].
  cbn [mbind outcome_bind] in Hb.
  destruct (range_headers _ _) as [req1| |]; [|done..].
  cbn [outcome_bind] in Hb. destruct (io_Copy _ _ _) as [h σ1].
  injection Hb as _ <- _.
  destruct (EncodeToString_shape (sha256.Sum h)) as [Hl Hd].
  unfold sha256.Sum in *. by rewrite length_Sum256 in Hl.
Qed.

Lemma buildRequestWithBodyReader_hash_shape_witness :
  let args := mkFlags "" "" "GET" "Accept: */*" in
  ∃ req σ',
    @buildRequestWithBodyReader url.go1_16 args "https://example.com" "POST" "eu-west-1" 0
        [strings.mkReader "{}" 1]
      = Ok (req, "d10b36aa74a59bcf4a88185837f658afaf3646eff2bb16c3928d0e9335e945d2", σ') ∧
    String.length "d10b36aa74a59bcf4a88185837f658afaf3646eff2bb16c3928d0e9335e945d2" = 64.
Proof.
  intros args. eexists _, _. split; [vm_compute; reflexivity|].
  eapply (proj1 (buildRequestWithBodyReader_hash_shape (H := url.go1_16) args
                   "https://example.com" "POST" "eu-west-1" 0
                   [strings.mkReader "{}" 1] _ _ _ eq_refl)).
Defined.

(** * The earlier revision *)

(** [buildRequest] of the earlier revision in closed form. *)
Lemma part_001_buildRequest_eq `{url.Parser} lambdaURL region body σ :
  part_001.buildRequest lambdaURL region body σ
  = match new_request "POST" lambdaURL (String.length body) with
    | None => Panic NilDereference
    | Some req0 =>
        Ok (http.with_Body
              (http.with_Header req0
                 (http.Add (http.Header req0) "Content-Type" "application/json"))
              (body_of (String.length body) (length σ)),
            hex.EncodeToString (sha256.Sum256 body),
            σ ++ [strings.mkReader body (String.length body)])
    end.
Proof.
  unfold part_001.buildRequest, strings_NewReader, part_001.buildRequestWithBodyReader.
  rewrite NewRequest_fresh, io_Copy_fresh.
  destruct (new_request _ _ _) as [req0|]; reflexivity.
Qed.

(** X12. The two revisions build the same request: with the header text
    [Content-Type: application/json] and the method [POST], [buildRequest]
    returns, for a URL that parses, what the earlier revision's returns,
    which had this header and this method written in.  They part on a URL
    that does not parse: the later revision exits, the earlier one panics
    on the nil request. *)
Theorem buildRequest_revisions `{url.Parser} (args : flags)
    (lambdaURL region body : string) (σ : heap) :
  headerList args = "Content-Type: application/json" →
  match url.Parse lambdaURL with
  | Some _ =>
      buildRequest args lambdaURL "POST" region body σ
        = part_001.buildRequest lambdaURL region body σ ∧
      ∃ req, part_001.buildRequest lambdaURL region body σ
             = Ok (req, hex.EncodeToString (sha256.Sum256 body),
                   σ ++ [strings.mkReader body (String.length body)])
  | None =>
      buildRequest args lambdaURL "POST" region body σ = Exit 1 ∧
      part_001.buildRequest lambdaURL region body σ = Panic NilDereference
  end.
Proof.
  intros Hl. rewrite buildRequest_eq, part_001_buildRequest_eq, Hl.
  unfold new_request. change (negb (http.validMethod _)) with false. cbn iota.
  destruct (url.Parse lambdaURL) as [u|]; cbn [mbind option_bind]; [|done].
  change (strings.Split "Content-Type: application/json" LF)
    with ["Content-Type: application/json"].
  rewrite (range_headers_one _ "Content-Type" " application/json" []) by reflexivity.
  change (strings.Trim "Content-Type" " ") with "Content-Type".
  change (strings.Trim " application/json" " ") with "application/json".
  cbn [mbind outcome_bind]. split; [reflexivity|]. eexists. reflexivity.
Qed.

Lemma buildRequest_revisions_witness :
  let url := "https://some-id.lambda-url.eu-west-1.on.aws/" in
  let args := mkFlags url "{}" "POST" "Content-Type: application/json" in
  @buildRequest url.go1_16 args url "POST" "eu-west-1" "{}" []
  = @part_001.buildRequest url.go1_16 url "eu-west-1" "{}" [].
Proof.
  intros url args.
  exact (proj1 (buildRequest_revisions (H := url.go1_16) args url "eu-west-1" "{}" []
                  eq_refl)).
Defined.

(** [main] of the earlier revision, where it reaches the signer. *)
Lemma part_001_main_prepare_inv `{url.Parser} environ σ credentials req bodyHash
    awsRegion σ' :
  part_001.main_prepare environ σ = Ok (credentials, req, bodyHash, awsRegion, σ') →
  part_001.buildRequest (os_Getenv environ "lambda-function-url") awsRegion
    (os_Getenv environ "body") σ = Ok (req, bodyHash, σ').
Proof.
  unfold part_001.main_prepare.
  change part_001.EnvLambdaFunctionURL with "lambda-function-url".
  change part_001.EnvLambdaFunctionBody with "body".
  destruct (String.eqb _ ""); [intros ?; discriminate|].
  destruct (String.eqb (os_Getenv environ part_001.EnvAWSRegion) "").
  - destruct (guessAWSRegion _) as [[r [e|]]| |];
      cbn [mbind outcome_bind]; [intros ?; discriminate| |intros ?; discriminate..].
    destruct (String.eqb _ ""); [intros ?; discriminate|].
    destruct (String.eqb _ ""); [intros ?; discriminate|].
    destruct (part_001.buildRequest _ _ _ _) as [[[req1 h1] σ1]| |];
      cbn [mbind outcome_bind]; [|intros ?; discriminate..].
    by intros [= <- <- <- <- <-].
  - cbn [mbind outcome_bind].
    destruct (String.eqb _ ""); [intros ?; discriminate|].
    destruct (String.eqb _ ""); [intros ?; discriminate|].
    destruct (part_001.buildRequest _ _ _ _) as [[[req1 h1] σ1]| |];
      cbn [mbind outcome_bind]; [|intros ?; discriminate..].
    by intros [= <- <- <- <- <-].
Qed.

(** X13. The earlier revision cannot send a body.  The request that its
    [main] has signed and sends holds the reader that the hashing has read
    to its end: with a body that is not empty, the request announces the
    length of the body and has no byte left to send, so that the transport
    fails; only an empty body goes through.  The payload hash is that of
    the body all the same. *)
Theorem part_001_main_sends_no_body `{url.Parser} (environ : gmap string string)
    (σ σ' : heap) (credentials : aws.Credentials) (req : http.Request)
    (bodyHash awsRegion : string) :
  part_001.main_prepare environ σ = Ok (credentials, req, bodyHash, awsRegion, σ') →
  let body := os_Getenv environ "body" in
  bodyHash = hex.EncodeToString (sha256.Sum256 body) ∧
  http.ContentLength req = Z.of_nat (String.length body) ∧
  http.outgoing_body req σ' = (if String.eqb body "" then Some "" else None).
Proof.
  intros Hb%part_001_main_prepare_inv body. fold body in Hb.
  rewrite part_001_buildRequest_eq in Hb.
  destruct (new_request _ _ _) as [req0|] eqn:Hn; [|discriminate].
  apply new_request_fields in Hn as [_ Hlen]. injection Hb as <- <- <-.
  split; [reflexivity|]. split; [exact Hlen|].
  unfold http.outgoing_body, body_of.
  cbn [http.Body http.ContentLength http.with_Body http.with_Header]. rewrite Hlen.
  destruct body as [|c body']; [reflexivity|].
  cbn [String.length Nat.eqb String.eqb].
  rewrite lookup_app_r, Nat.sub_diag by done. cbn [lookup list_lookup mbind option_bind].
  unfold strings.unread. cbn [strings.s strings.i].
  assert (strings.from (String.length (String c body')) (String c body') = "") as Hfrom
    by (rewrite <- (app_nil_r (String c body')) at 2; apply from_app).
  cbn [String.length] in Hfrom. rewrite Hfrom. cbn [String.length].
  destruct (Z.ltb_spec 0 (Z.of_nat (S (String.length body')))); [|lia].
  destruct (Z.eqb_spec (Z.of_nat 0) (Z.of_nat (S (String.length body')))); [lia|].
  reflexivity.
Qed.

Lemma part_001_main_sends_no_body_witness :
  let environ : gmap string string :=
    {[ "lambda-function-url" := "https://some-id.lambda-url.eu-west-1.on.aws/";
       "body" := "{}"; "aws-access-key-id" := "AKID";
       "aws-secret-access-key" := "SECRET" ]} in
  ∃ credentials req awsRegion σ',
    @part_001.main_prepare url.go1_16 environ [] = Ok (credentials, req,
      "44136fa355b3678a1146ad16f7e8649e94fb4fc21fe77e8310c060f61caaff8a", awsRegion, σ') ∧
    http.ContentLength req = 2%Z ∧ http.outgoing_body req σ' = None.
Proof.
  intros environ. eexists _, _, _, _. split; [vm_compute; reflexivity|].
  eapply (proj2 (part_001_main_sends_no_body (H := url.go1_16) environ [] _ _ _ _ _ eq_refl)).
Defined.

(** * What [main] prints *)







